(** * apteryx_transformers.models.autoencoders

    A shallow embedding of [src/apteryx_transformers/models/autoencoders.py]:
    the layer-trainability selector run by
    [AbstractTransformerAutoencoder.__init__], its helper
    [toggle_layer_grad], the argument forwarding of [T5Autoencoder.__init__],
    and the configuration merge and dataset split of [get_trainer].

    Conventions.
    - A Python [int] is a [Z]; a Python [float] is an IEEE binary64 value,
      represented by [spec_float] with precision 53 and maximal exponent 1024.
    - A model parameter is an object with a mutable [requires_grad] attribute.
      Parameters are named by natural numbers and the attribute lives in a
      store [gmap nat bool]; two layers that list the same name share the
      parameter.
    - Code that may raise runs in the monad [Exec]: a state transformer on
      the store whose outcome is either a returned value or a raised
      exception.  The store reached when the exception is raised is kept,
      since Python does not roll back attribute writes.
    - The [print] calls of the source, and the counter [layer_acc] that only
      numbers their lines, are not modelled. *)

From Stdlib Require Import ZArith Lia Permutation Ascii.
From Stdlib Require Import Floats.SpecFloat.
From stdpp Require Import base option list gmap strings fin_maps pretty.

Local Open Scope Z_scope.

(** ** Python values and exceptions *)

(** IEEE binary64, as CPython's [float]. *)
Abbreviation float := spec_float (only parsing).

Definition prec : Z := 53.
Definition emax : Z := 1024.

(** Scalar values that appear as attribute values of a configuration. *)
Inductive pyval : Type :=
  | PNone
  | PBool (b : bool)
  | PInt (z : Z)
  | PFloat (f : float)
  | PStr (s : string).

(** Objects passed to the constructors: a scalar, a mapping from attribute
    names to scalars (a [dict]), or a dataset of a given length. *)
Inductive pyobj : Type :=
  | OScalar (v : pyval)
  | OMapping (d : gmap string pyval)
  | ODataset (size : nat).

Inductive exn : Type :=
  | AssertionError
  | AttributeError
  | TypeError
  | ValueError
  | OverflowError.

Inductive outcome (A : Type) : Type :=
  | Returned (a : A)
  | Raised (e : exn).
Arguments Returned {A} a.
Arguments Raised {A} e.

(** ** The parameter store and the execution monad *)

Abbreviation Param := nat (only parsing).
Abbreviation Store := (gmap nat bool) (only parsing).

Definition Exec (A : Type) : Type := gmap nat bool → gmap nat bool * outcome A.

#[global] Instance Exec_ret : MRet Exec := λ A a s, (s, Returned a).

#[global] Instance Exec_bind : MBind Exec := λ A B f m s,
  match m s with
  | (s', Returned a) => f a s'
  | (s', Raised e) => (s', Raised e)
  end.

Definition raise {A : Type} (e : exn) : Exec A := λ s, (s, Raised e).

(** [assert cond] *)
Definition assert (cond : bool) : Exec unit :=
  if cond then mret () else raise AssertionError.

(** [p.requires_grad = b] *)
Definition set_requires_grad (p : Param) (b : bool) : Exec unit :=
  λ s, (<[p := b]> s, Returned ()).

(** [for x in xs: body x] *)
Fixpoint for_each {A : Type} (xs : list A) (body : A → Exec unit) : Exec unit :=
  match xs with
  | [] => mret ()
  | x :: xs' => body x ;; for_each xs' body
  end.

(** A parameter is trainable when its [requires_grad] attribute is [True]. *)
Definition trainable (s : gmap nat bool) (p : Param) : bool :=
  bool_decide (s !! p = Some true).

Definition frozen (s : gmap nat bool) (p : Param) : bool :=
  bool_decide (s !! p = Some false).

(** ** Python slices *)

(** The adjustment CPython applies to one bound of a slice with step 1 over
    a sequence of length [len]: a negative bound counts from the end, and the
    result is clipped to [0, len]. *)
Definition slice_index (len : nat) (i : Z) : nat :=
  if i <? 0 then Z.to_nat (Z.max (i + Z.of_nat len) 0)
  else Z.to_nat (Z.min i (Z.of_nat len)).

(** [l[:stop]] *)
Definition slice_to {A : Type} (l : list A) (stop : Z) : list A :=
  take (slice_index (length l) stop) l.

(** [l[start:]] *)
Definition slice_from {A : Type} (l : list A) (start : Z) : list A :=
  drop (slice_index (length l) start) l.

(** [l[start:stop]] *)
Definition slice {A : Type} (l : list A) (start stop : Z) : list A :=
  drop (slice_index (length l) start) (take (slice_index (length l) stop) l).

(** ** The model *)

(** A layer is the list [layer.parameters()] of its parameters. *)
Abbreviation Layer := (list nat) (only parsing).

(** The part of the external model object the code reads:
    [model.encoder.block], [model.decoder.block], the attribute path
    [model.base_model.encoder.layer] ([None] when the path does not exist, as
    for [T5ForConditionalGeneration], whose encoder stack has [block] but no
    [layer]), and the parameters outside all of these (embeddings, final
    norms, the language-model head). *)
Record Model : Type := {
  encoder_block : list (list nat);
  decoder_block : list (list nat);
  base_model_encoder_layer : option (list (list nat));
  other_parameters : list nat
}.

(** [model.parameters()]: every parameter of the model.  The order is
    immaterial to the code, which sets each one to the same value. *)
Definition parameters (m : Model) : list Param :=
  other_parameters m ++ concat (encoder_block m) ++ concat (decoder_block m)
    ++ concat (default [] (base_model_encoder_layer m)).

(** The [n_layers_to_train] argument: a pair, an integer, or anything else
    (in particular [None]). *)
Inductive Spec : Type :=
  | SpecTuple (n_enc_to_train n_dec_to_train : Z)
  | SpecInt (n : Z)
  | SpecNone.

(** Unary minus, as in [-self.n_layers_to_train]: defined on integers only. *)
Definition neg (spec : Spec) : Exec Z :=
  match spec with
  | SpecInt n => mret (- n)
  | SpecTuple _ _ | SpecNone => raise TypeError
  end.

(** The attribute lookup [self.model.base_model.encoder.layer]. *)
Definition get_base_model_encoder_layer (m : Model) : Exec (list (list nat)) :=
  match base_model_encoder_layer m with
  | Some layers => mret layers
  | None => raise AttributeError
  end.

(** ** Floats, for [int(N * self.train_pct)] *)

(** [float(n)] for an integer: rounded to nearest, ties to even; too large
    an integer raises [OverflowError]. *)
Definition float_of_int (n : Z) : Exec float :=
  match binary_normalize prec emax n 0 false with
  | S754_infinity _ => raise OverflowError
  | f => mret f
  end.

(** [int(x)] for a float: truncation towards zero. *)
Definition int_of_float (x : float) : Exec Z :=
  match x with
  | S754_zero _ => mret 0
  | S754_finite s m e => mret (cond_Zopp s (Z.shiftl (Z.pos m) e))
  | S754_infinity _ => raise OverflowError
  | S754_nan => raise ValueError
  end.

(** [n * x] for an integer [n] and a float [x]: [n] is converted first. *)
Definition int_mul_float (n : Z) (x : float) : Exec float :=
  fn ← float_of_int n ;
  mret (SFmul prec emax fn x).

(** The float denoted by the decimal literal [m / 10^k], for [m] and [10^k]
    below [2^53]: both are exact floats and IEEE division rounds their
    quotient correctly, as the literal's parser does. *)
Definition float_literal (m : Z) (k : nat) : float :=
  SFdiv prec emax (binary_normalize prec emax m 0 false)
                  (binary_normalize prec emax (10 ^ Z.of_nat k) 0 false).

Module AbstractTransformerAutoencoder.

(** [toggle_layer_grad(self, module, n_to_train)].  It reads two fields of
    [self]: [self.model] and [self.n_layers_to_train].  The subscription
    [self.model.base_model.encoder.layer[-self.n_layers_to_train:]]
    evaluates the attribute path first, then the unary minus, then the
    slice. *)
Definition toggle_layer_grad (model : Model) (n_layers_to_train : Spec)
    (module : list (list nat)) (n_to_train : Z) : Exec unit :=
  let n_layers := Z.of_nat (length module) in
  (* Train all layers if n_to_train is -1. *)
  let n_to_train := if n_to_train =? -1 then n_layers else n_to_train in
  if n_to_train >? 0 then
    for_each (slice_to module (- n_to_train)) (λ layer,
      for_each layer (λ p, set_requires_grad p false)) ;;
    layers ← get_base_model_encoder_layer model ;
    start ← neg n_layers_to_train ;
    for_each (slice_from layers start) (λ layer,
      for_each layer (λ p, set_requires_grad p true))
  else mret ().

(** The [else] branch of the selector: [for p in self.model.parameters():
    p.requires_grad = False]. *)
Definition freeze_all (model : Model) : Exec unit :=
  for_each (parameters model) (λ p, set_requires_grad p false).

(** The default of the [n_layers_to_train] parameter. *)
Definition default_n_layers_to_train : Spec := SpecInt 0.

(** Lines 59 and 60: the counts the integer branch requests. *)
Definition n_dec_to_train (n n_dec_layers : Z) : Z :=
  if n <? n_dec_layers then n else n_dec_layers.

Definition n_enc_to_train (n n_dec_layers : Z) : Z :=
  Z.max (n - n_dec_layers) 0.

(** Lines 45 to 69 of [__init__]: the selector proper, run on the freshly
    built model. *)
Definition init_layers (model : Model) (n_layers_to_train : Spec) : Exec unit :=
  let n_enc_layers := Z.of_nat (length (encoder_block model)) in
  let n_dec_layers := Z.of_nat (length (decoder_block model)) in
  let total_attn_layers := n_enc_layers + n_dec_layers in
  match n_layers_to_train with
  | SpecTuple n_enc_to_train n_dec_to_train =>
      assert (n_enc_to_train <=? n_enc_layers) ;;
      assert (n_dec_to_train <=? n_dec_layers) ;;
      toggle_layer_grad model n_layers_to_train (encoder_block model) n_enc_to_train ;;
      toggle_layer_grad model n_layers_to_train (decoder_block model) n_dec_to_train
  | SpecInt n =>
      if n >? 0 then
        assert (total_attn_layers >=? n) ;;
        let n_dec_to_train := n_dec_to_train n n_dec_layers in
        let n_enc_to_train := n_enc_to_train n n_dec_layers in
        toggle_layer_grad model n_layers_to_train (encoder_block model) n_enc_to_train ;;
        toggle_layer_grad model n_layers_to_train (decoder_block model) n_dec_to_train
      else freeze_all model
  | SpecNone => freeze_all model
  end.

(** *** The constructor *)

(** The external library, as far as this code depends on it: the model a
    subclass's [get_model_class()] builds from a configuration, the
    attribute values [TrainingArguments] assigns to the fields the code
    does not pass, and the names [TrainingArguments] exposes as read-only
    properties (such as [n_gpu], [device] and [train_batch_size]), which
    [setattr] refuses. *)
Record Library : Type := {
  get_model_class : gmap string pyval → Model;
  TrainingArguments_defaults : gmap string pyval;
  TrainingArguments_read_only : gset string
}.

(** The attributes [__init__] assigns. *)
Record Self : Type := {
  model_name : string;
  block_size : pyobj;
  n_layers_to_train : Spec;
  dataset : pyobj;
  config : gmap string pyval;
  model : Model;
  n_enc_layers : Z;
  n_dec_layers : Z;
  total_attn_layers : Z;
  training_args : pyobj;
  train_pct : float
}.

(** [**model_config_dict]: the argument after [**] must be a mapping. *)
Definition expand_kwargs (o : pyobj) : Exec (gmap string pyval) :=
  match o with
  | OMapping d => mret d
  | OScalar _ | ODataset _ => raise TypeError
  end.

(** [__init__(self, dataset, model_name, model_config_dict,
    training_args_dict, block_size, train_pct, n_layers_to_train)].  The
    store the selector starts from is the store as the model constructor
    left it. *)
Definition init (lib : Library) (dataset : pyobj) (model_name : string)
    (model_config_dict training_args_dict block_size : pyobj)
    (train_pct : float) (n_layers_to_train : Spec) : Exec Self :=
  config ← expand_kwargs model_config_dict ;
  let model := get_model_class lib config in
  init_layers model n_layers_to_train ;;
  mret {| model_name := model_name;
          block_size := block_size;
          n_layers_to_train := n_layers_to_train;
          dataset := dataset;
          config := config;
          model := model;
          n_enc_layers := Z.of_nat (length (encoder_block model));
          n_dec_layers := Z.of_nat (length (decoder_block model));
          total_attn_layers :=
            Z.of_nat (length (encoder_block model))
            + Z.of_nat (length (decoder_block model));
          training_args := training_args_dict;
          train_pct := train_pct |}.

(** *** [get_trainer] *)

(** [datetime.now()], as far as it is read. *)
Record datetime : Type := { day : nat; month : nat; year : nat }.

(** [s.split('/')[-1]]: the part of [s] after its last ['/']. *)
Fixpoint last_segment_from (acc s : string) : string :=
  match s with
  | EmptyString => acc
  | String c s' =>
      if Ascii.eqb c "/"%char then last_segment_from EmptyString s'
      else last_segment_from (acc +:+ String c EmptyString) s'
  end.

Definition last_segment (s : string) : string := last_segment_from EmptyString s.

(** The keyword arguments of the [TrainingArguments(...)] call. *)
Definition default_kwargs (model_name : string) (now : datetime)
    : list (string * pyval) :=
  [ ("output_dir"%string,
      PStr (last_segment model_name +:+ "-" +:+ pretty (day now) +:+ "-"
            +:+ pretty (month now) +:+ "-" +:+ pretty (year now)));
    ("overwrite_output_dir"%string, PBool true);
    ("num_train_epochs"%string, PInt 1);
    ("per_device_train_batch_size"%string, PInt 32);
    ("save_steps"%string, PInt 100);
    ("save_total_limit"%string, PInt 2);
    ("logging_steps"%string, PInt 20);
    ("dataloader_num_workers"%string, PInt 15);
    ("warmup_steps"%string, PInt 50);
    ("weight_decay"%string, PFloat (float_literal 1 2));
    ("evaluation_strategy"%string, PStr "steps");
    ("eval_steps"%string, PInt 100);
    ("fp16"%string, PBool true);
    ("gradient_accumulation_steps"%string, PInt 5) ].

(** The [TrainingArguments] object as its attribute dictionary: the
    keyword arguments, over the library's values for the other fields. *)
Definition default_training_args (lib : Library) (model_name : string)
    (now : datetime) : gmap string pyval :=
  list_to_map (default_kwargs model_name now) ∪ TrainingArguments_defaults lib.

(** Truth value of an object, as tested by [if self.training_args:]. *)
Definition truthy (o : pyobj) : bool :=
  match o with
  | OScalar PNone => false
  | OScalar (PBool b) => b
  | OScalar (PInt z) => negb (z =? 0)
  | OScalar (PFloat f) => negb (SFeqb f (S754_zero false))
  | OScalar (PStr s) => negb (String.eqb s EmptyString)
  | OMapping d => negb (bool_decide (d = ∅))
  | ODataset n => negb (Nat.eqb n 0)
  end.

(** [o.items()], which only a mapping has. *)
Definition items (o : pyobj) : Exec (list (string * pyval)) :=
  match o with
  | OMapping d => mret (map_to_list d)
  | OScalar _ | ODataset _ => raise AttributeError
  end.

(** [setattr(obj, k, v)] on the [TrainingArguments] object, held as its
    attribute dictionary: a name that is a read-only property raises
    [AttributeError]; any other name, known to the class or not, is
    assigned. *)
Definition setattr (lib : Library) (obj : gmap string pyval) (k : string)
    (v : pyval) : Exec (gmap string pyval) :=
  if bool_decide (k ∈ TrainingArguments_read_only lib) then raise AttributeError
  else mret (<[k := v]> obj).

(** [for k, v in kvs: setattr(obj, k, v)] *)
Fixpoint setattr_each (lib : Library) (obj : gmap string pyval)
    (kvs : list (string * pyval)) : Exec (gmap string pyval) :=
  match kvs with
  | [] => mret obj
  | kv :: kvs' => obj' ← setattr lib obj kv.1 kv.2 ; setattr_each lib obj' kvs'
  end.

(** Lines 101 to 123: the defaults, updated with each item of
    [self.training_args] when that is truthy. *)
Definition merge_training_args (lib : Library) (self : Self) (now : datetime)
    : Exec (gmap string pyval) :=
  let default_training_args := default_training_args lib (model_name self) now in
  if truthy (training_args self) then
    kvs ← items (training_args self) ;
    setattr_each lib default_training_args kvs
  else mret default_training_args.

(** A byte of the form [10xxxxxx], which continues a UTF-8 sequence. *)
Definition is_continuation (c : ascii) : bool :=
  match c with
  | Ascii _ _ _ _ _ _ b6 b7 => b7 && negb b6
  end.

(** The number of code points of a string held as its UTF-8 bytes, which
    is what [len] of a [str] counts. *)
Fixpoint utf8_length (s : string) : nat :=
  match s with
  | EmptyString => 0
  | String c s' => ((if is_continuation c then 0 else 1) + utf8_length s')%nat
  end.

(** [len(o)] *)
Definition len (o : pyobj) : Exec Z :=
  match o with
  | ODataset n => mret (Z.of_nat n)
  | OMapping d => mret (Z.of_nat (size d))
  | OScalar (PStr s) => mret (Z.of_nat (utf8_length s))
  | OScalar _ => raise TypeError
  end.

(** [torch.utils.data.random_split(dataset, lengths)] for two lengths,
    returning the index lists of the two [Subset]s.  [indices] stands for
    the list [randperm(sum(lengths))] draws; the two subsets are
    [indices[offset - length : offset]] for the running sums [offset]. *)
Definition random_split (dataset : pyobj) (lengths : Z * Z)
    (indices : list nat) : Exec (list nat * list nat) :=
  let '(l1, l2) := lengths in
  n ← len dataset ;
  if bool_decide (l1 + l2 ≠ n) then raise ValueError
  else
    let offset1 := l1 in
    let offset2 := l1 + l2 in
    mret (slice indices (offset1 - l1) offset1,
          slice indices (offset2 - l2) offset2).

Record Trainer : Type := {
  trainer_model : Model;
  args : gmap string pyval;
  train_dataset : list nat;
  eval_dataset : list nat
}.

(** Line 126: [int(N * self.train_pct)]. *)
Definition n_train_of (N : Z) (train_pct : float) : Exec Z :=
  x ← int_mul_float N train_pct ;
  int_of_float x.

(** [get_trainer(self)], on its first call.  [now] is the value of
    [datetime.now()] and [indices] the permutation [random_split] draws. *)
Definition get_trainer (lib : Library) (self : Self) (now : datetime)
    (indices : list nat) : Exec Trainer :=
  default_training_args ← merge_training_args lib self now ;
  N ← len (dataset self) ;
  n_train ← n_train_of N (train_pct self) ;
  let n_val := N - n_train in
  split ← random_split (dataset self) (n_train, n_val) indices ;
  mret {| trainer_model := model self;
          args := default_training_args;
          train_dataset := split.1;
          eval_dataset := split.2 |}.

End AbstractTransformerAutoencoder.

Module T5Autoencoder.

(** The defaults of [T5Autoencoder.__init__]. *)
Definition default_model_name : string := "t5-base".
Definition default_block_size : pyobj := OScalar (PInt 1024).
Definition default_training_args_dict : pyobj := OScalar PNone.
(** [np.inf] *)
Definition default_ds_limit : pyobj := OScalar (PFloat (S754_infinity false)).
Definition default_train_pct : float := float_literal 8 1.
Definition default_n_layers_to_train : Spec := SpecTuple (-1) (-1).

(** [__init__(self, data_dir, model_name, block_size, training_args_dict,
    ds_limit, train_pct, n_layers_to_train)]: the call
    [super().__init__(data_dir, model_name, block_size, training_args_dict,
    ds_limit, train_pct=train_pct, n_layers_to_train=n_layers_to_train)]
    binds its five positional arguments to the first five parameters of
    the base constructor, in order. *)
Definition init (lib : AbstractTransformerAutoencoder.Library)
    (data_dir : pyobj) (model_name : string)
    (block_size training_args_dict ds_limit : pyobj)
    (train_pct : float) (n_layers_to_train : Spec)
    : Exec AbstractTransformerAutoencoder.Self :=
  AbstractTransformerAutoencoder.init lib
    data_dir model_name block_size training_args_dict ds_limit
    train_pct n_layers_to_train.

End T5Autoencoder.

(** ** Vocabulary of the properties *)

(** The store after [p.requires_grad = b] for each [p] of [ps], in order. *)
Definition set_all (b : bool) (ps : list nat) (s : gmap nat bool) : gmap nat bool :=
  foldl (λ s p, <[p := b]> s) s ps.

(** Every parameter of the layer is trainable, respectively frozen. *)
Definition layer_trainable (s : gmap nat bool) (layer : list nat) : bool :=
  forallb (trainable s) layer.

Definition layer_frozen (s : gmap nat bool) (layer : list nat) : bool :=
  forallb (frozen s) layer.

(** The number of layers of a stack all of whose parameters are trainable. *)
Definition count_trainable (s : gmap nat bool) (layers : list (list nat)) : nat :=
  length (filter (λ layer, layer_trainable s layer = true) layers).

(** Exactly the last [k] layers of the stack are trainable and the others
    are frozen. *)
Definition last_trainable (s : gmap nat bool) (layers : list (list nat)) (k : nat)
    : bool :=
  forallb (layer_frozen s) (take (length layers - k) layers)
  && forallb (layer_trainable s) (drop (length layers - k) layers).

(** A store in which the parameters [0 .. n-1] all have [requires_grad]
    equal to [b]: [True] is what a freshly built PyTorch model has. *)
Definition all_flags (b : bool) (n : nat) : gmap nat bool :=
  list_to_map ((λ p, (p, b)) <$> seq 0 n).

(** A T5-shaped model with [E] encoder and [D] decoder layers of one
    parameter each, numbered in order, and one parameter outside the stacks;
    the path [base_model.encoder.layer] does not exist. *)
Definition t5_like (E D : nat) : Model :=
  {| encoder_block := (λ p, [p]) <$> seq 0 E;
     decoder_block := (λ p, [p]) <$> seq E D;
     base_model_encoder_layer := None;
     other_parameters := [(E + D)%nat] |}.

(** The same model, for a class whose [base_model.encoder.layer] is the
    encoder stack itself. *)
Definition bert_like (E D : nat) : Model :=
  {| encoder_block := (λ p, [p]) <$> seq 0 E;
     decoder_block := (λ p, [p]) <$> seq E D;
     base_model_encoder_layer := Some ((λ p, [p]) <$> seq 0 E);
     other_parameters := [(E + D)%nat] |}.

(** The count [toggle_layer_grad] works with once the sentinel is resolved. *)
Definition effective (module : list (list nat)) (n : Z) : Z :=
  if n =? -1 then Z.of_nat (length module) else n.

(** A library whose model class builds [t5_like E D] whatever the
    configuration. *)
Definition t5_library (E D : nat) : AbstractTransformerAutoencoder.Library :=
  {| AbstractTransformerAutoencoder.get_model_class := λ _, t5_like E D;
     AbstractTransformerAutoencoder.TrainingArguments_defaults := ∅;
     AbstractTransformerAutoencoder.TrainingArguments_read_only :=
       {[ "n_gpu"%string; "device"%string; "train_batch_size"%string;
          "eval_batch_size"%string ]} |}.

(** The overrides a [TrainingArguments] object accepts: [None], or a
    mapping none of whose keys is a read-only property. *)
Definition settable (lib : AbstractTransformerAutoencoder.Library) (o : pyobj)
    : Prop :=
  o = OScalar PNone
  ∨ ∃ d, o = OMapping d
      ∧ ∀ k, k ∈ dom d →
          k ∉ AbstractTransformerAutoencoder.TrainingArguments_read_only lib.

(** A float strictly between 0 and 1: a positive finite binary64 value in
    canonical form that compares below [1.0]. *)
Definition in_open_unit (p : float) : bool :=
  valid_binary prec emax p && SFltb (S754_zero false) p && SFltb p (SFone prec emax).

(** Sign bit clear and magnitude below [2 ^ B]. *)
Definition nonneg_below (B : Z) (f : float) : Prop :=
  f = S754_zero false
  ∨ ∃ m e, f = S754_finite false m e ∧ Zdigits2 (Z.pos m) + e ≤ B ∧ e ≤ 971.

(** The floor of the exact product of the integer [N] and the value of the
    float [p], which is the formula the specification gives for [n_train];
    it follows the specification and not the source. *)
Definition floor_of_product (N : Z) (p : float) : Z :=
  match p with
  | S754_finite s m e => Z.shiftl (N * cond_Zopp s (Z.pos m)) e
  | _ => 0
  end.

(** An instance as the constructor leaves it, for a dataset of [N] items. *)
Definition example_self (training_args : pyobj) (N : nat) (p : float)
    : AbstractTransformerAutoencoder.Self :=
  {| AbstractTransformerAutoencoder.model_name := "google/t5-small";
     AbstractTransformerAutoencoder.block_size := OScalar (PInt 512);
     AbstractTransformerAutoencoder.n_layers_to_train := SpecInt 0;
     AbstractTransformerAutoencoder.dataset := ODataset N;
     AbstractTransformerAutoencoder.config := ∅;
     AbstractTransformerAutoencoder.model := t5_like 2 3;
     AbstractTransformerAutoencoder.n_enc_layers := 2;
     AbstractTransformerAutoencoder.n_dec_layers := 3;
     AbstractTransformerAutoencoder.total_attn_layers := 5;
     AbstractTransformerAutoencoder.training_args := training_args;
     AbstractTransformerAutoencoder.train_pct := p |}.

(** A computation keeps the flag of [p]: whatever it returns or raises,
    the store it leaves has the flag [p] started with. *)
Definition preserves {A : Type} (p : nat) (c : Exec A) : Prop :=
  ∀ s, (c s).1 !! p = s !! p.

(** A computation never sets the flag of [p]: it leaves it as it was or
    cleared. *)
Definition only_clears {A : Type} (p : nat) (c : Exec A) : Prop :=
  ∀ s, (c s).1 !! p = s !! p ∨ (c s).1 !! p = Some false.

(** The string holds no ['/']. *)
Fixpoint no_slash (s : string) : bool :=
  match s with
  | EmptyString => true
  | String c s' => negb (Ascii.eqb c "/"%char) && no_slash s'
  end.

(** * Properties *)

Import AbstractTransformerAutoencoder.

(** ** Running loops of attribute writes *)

Section Loops.

Implicit Types (s : gmap nat bool) (ps : list nat) (b : bool).

Lemma bind_returned {A B : Type} (m : Exec A) (f : A → Exec B) s s' a :
  m s = (s', Returned a) → (m ≫= f) s = f a s'.
Proof. intros H. unfold mbind, Exec_bind. by rewrite H. Qed.

Lemma bind_raised {A B : Type} (m : Exec A) (f : A → Exec B) s s' e :
  m s = (s', Raised e) → (m ≫= f) s = (s', Raised e).
Proof. intros H. unfold mbind, Exec_bind. by rewrite H. Qed.

Lemma for_each_set ps b s :
  for_each ps (λ p, set_requires_grad p b) s = (set_all b ps s, Returned ()).
Proof.
  revert s. induction ps as [|p ps IH]; intros s; [done|].
  cbn [for_each]. erewrite bind_returned; [|reflexivity]. apply IH.
Qed.

Lemma set_all_app b ps qs s :
  set_all b (ps ++ qs) s = set_all b qs (set_all b ps s).
Proof. apply foldl_app. Qed.

Lemma for_each_layers (layers : list (list nat)) b s :
  for_each layers (λ layer, for_each layer (λ p, set_requires_grad p b)) s
  = (set_all b (concat layers) s, Returned ()).
Proof.
  revert s. induction layers as [|l layers IH]; intros s; [done|].
  cbn [for_each concat]. erewrite bind_returned; [|apply for_each_set].
  rewrite IH. by rewrite set_all_app.
Qed.

Lemma lookup_set_all_elem b ps s p :
  p ∈ ps → set_all b ps s !! p = Some b.
Proof.
  revert s. induction ps as [|q ps IH] using rev_ind; intros s Hp.
  - by apply elem_of_nil in Hp.
  - rewrite set_all_app. cbn. destruct (decide (q = p)) as [->|Hne].
    + apply lookup_insert_eq.
    + rewrite lookup_insert_ne by done. apply IH.
      apply elem_of_app in Hp as [Hp|Hp]; [done|].
      apply list_elem_of_singleton in Hp. congruence.
Qed.

Lemma lookup_set_all_not_elem b ps s p :
  p ∉ ps → set_all b ps s !! p = s !! p.
Proof.
  revert s. induction ps as [|q ps IH]; intros s Hp; [done|].
  cbn. apply not_elem_of_cons in Hp as [Hne Hp].
  change (set_all b ps (<[q:=b]> s) !! p = s !! p).
  rewrite IH by done. by rewrite lookup_insert_ne.
Qed.

End Loops.

(** ** [toggle_layer_grad] *)

Section Toggle.

Variables (m : Model) (spec : Spec).
Implicit Types (module : list (list nat)) (s : gmap nat bool) (n : Z).

(** A count that is zero, or negative and not the sentinel, does nothing. *)
Lemma toggle_noop module n s :
  n ≤ 0 → n ≠ -1 → toggle_layer_grad m spec module n s = (s, Returned ()).
Proof.
  intros Hle Hne. unfold toggle_layer_grad.
  destruct (Z.eqb_spec n (-1)) as [?|_]; [done|].
  destruct (Z.gtb_spec n 0); [lia|done].
Qed.

(** The sentinel on an empty stack does nothing either. *)
Lemma toggle_sentinel_empty s :
  toggle_layer_grad m spec [] (-1) s = (s, Returned ()).
Proof. reflexivity. Qed.

(** The sentinel is read as the length of the stack. *)
Lemma toggle_sentinel module :
  toggle_layer_grad m spec module (-1)
  = toggle_layer_grad m spec module (Z.of_nat (length module)).
Proof.
  unfold toggle_layer_grad. cbn [Z.eqb].
  destruct (Z.eqb_spec (Z.of_nat (length module)) (-1)); [lia|done].
Qed.

(** With an effective count, the first loop freezes the leading layers;
    what follows depends on the attribute path and on the type of
    [self.n_layers_to_train]. *)
Lemma toggle_effective module n s :
  0 < effective module n →
  toggle_layer_grad m spec module n s
  = (layers ← get_base_model_encoder_layer m ;
     start ← neg spec ;
     for_each (slice_from layers start) (λ layer,
       for_each layer (λ p, set_requires_grad p true)))
    (set_all false (concat (slice_to module (- effective module n))) s).
Proof.
  intros Hpos. unfold toggle_layer_grad. fold (effective module n).
  destruct (Z.gtb_spec (effective module n) 0); [|lia].
  erewrite bind_returned; [done|apply for_each_layers].
Qed.

End Toggle.

(** ** Validation *)

(** C3: an integer spec [n] above the total number of layers [E + D] fails
    the assertion of the integer branch, and the store of [requires_grad]
    flags is exactly the one the call started from; this holds of the
    selector and of the whole constructor called with a configuration
    mapping. *)
Theorem C3_int_above_total_fails_unchanged
    (lib : Library) (dataset : pyobj) (name : string) (cfg : gmap string pyval)
    (tad bs : pyobj) (tp : float) (n : Z) (s : gmap nat bool) :
  let m := get_model_class lib cfg in
  n > Z.of_nat (length (encoder_block m)) + Z.of_nat (length (decoder_block m)) →
  init_layers m (SpecInt n) s = (s, Raised AssertionError)
  ∧ init lib dataset name (OMapping cfg) tad bs tp (SpecInt n) s
    = (s, Raised AssertionError).
Proof.
  intros m Hn.
  assert (Hsel : init_layers m (SpecInt n) s = (s, Raised AssertionError)).
  { unfold init_layers. destruct (Z.gtb_spec n 0) as [_|]; [|lia].
    apply bind_raised. unfold assert.
    by destruct (Z.geb_spec
      (Z.of_nat (length (encoder_block m)) + Z.of_nat (length (decoder_block m))) n);
      [lia|]. }
  split; [done|]. unfold init. erewrite bind_returned; [|reflexivity].
  by apply bind_raised.
Qed.

Lemma C3_int_above_total_fails_unchanged_witness :
  6 > Z.of_nat (length (encoder_block (t5_like 2 3)))
      + Z.of_nat (length (decoder_block (t5_like 2 3)))
  ∧ init_layers (t5_like 2 3) (SpecInt 6) (all_flags true 6)
    = (all_flags true 6, Raised AssertionError).
Proof.
  split; [reflexivity|].
  apply (C3_int_above_total_fails_unchanged (t5_library 2 3) (ODataset 10)
           "t5-base" ∅ (OScalar PNone) (OScalar (PInt 1024))
           (float_literal 8 1) 6 (all_flags true 6)).
  reflexivity.
Defined.

(** C6: a pair spec [(e, d)] must satisfy [e ≤ E] and [d ≤ D]: when either
    bound is violated the selector raises [AssertionError] before any flag
    is written, so the store is unchanged; and whenever the selector
    returns, both bounds hold. *)
Theorem C6_pair_bounds_checked_first
    (m : Model) (e d : Z) (s : gmap nat bool) :
  (e > Z.of_nat (length (encoder_block m))
     ∨ d > Z.of_nat (length (decoder_block m)) →
   init_layers m (SpecTuple e d) s = (s, Raised AssertionError))
  ∧ (∀ s', init_layers m (SpecTuple e d) s = (s', Returned ()) →
       e ≤ Z.of_nat (length (encoder_block m))
       ∧ d ≤ Z.of_nat (length (decoder_block m))).
Proof.
  assert (Hfail : e > Z.of_nat (length (encoder_block m))
     ∨ d > Z.of_nat (length (decoder_block m)) →
     init_layers m (SpecTuple e d) s = (s, Raised AssertionError)).
  { intros Hviol. unfold init_layers, assert.
    destruct (Z.leb_spec e (Z.of_nat (length (encoder_block m)))) as [He|He].
    - erewrite bind_returned; [|reflexivity].
      destruct (Z.leb_spec d (Z.of_nat (length (decoder_block m)))); [lia|].
      by apply bind_raised.
    - by apply bind_raised. }
  split; [done|]. intros s' Hret.
  destruct (Z.leb_spec e (Z.of_nat (length (encoder_block m))));
    destruct (Z.leb_spec d (Z.of_nat (length (decoder_block m))));
    try done; rewrite Hfail in Hret by lia; discriminate.
Qed.

Lemma C6_pair_bounds_checked_first_witness :
  (3 > Z.of_nat (length (encoder_block (t5_like 2 3)))
   ∨ 1 > Z.of_nat (length (decoder_block (t5_like 2 3))))
  ∧ init_layers (t5_like 2 3) (SpecTuple 3 1) (all_flags true 6)
    = (all_flags true 6, Raised AssertionError)
  ∧ init_layers (t5_like 2 3) (SpecTuple (-4) (-2)) (all_flags true 6)
    = (all_flags true 6, Returned ())
  ∧ -4 ≤ Z.of_nat (length (encoder_block (t5_like 2 3)))
  ∧ -2 ≤ Z.of_nat (length (decoder_block (t5_like 2 3))).
Proof.
  split; [left; reflexivity|]. split.
  - apply (proj1 (C6_pair_bounds_checked_first
                    (t5_like 2 3) 3 1 (all_flags true 6))).
    left. reflexivity.
  - split; [reflexivity|].
    apply (proj2 (C6_pair_bounds_checked_first
                    (t5_like 2 3) (-4) (-2) (all_flags true 6))
                 (all_flags true 6)).
    reflexivity.
Defined.

(** ** The selector on a pair *)

(** The exception the second loop of [toggle_layer_grad] raises when
    [self.n_layers_to_train] is a pair. *)
Lemma toggle_tuple (m : Model) (e d : Z) (module : list (list nat)) (n : Z)
    (s : gmap nat bool) :
  toggle_layer_grad m (SpecTuple e d) module n s
  = if 0 <? effective module n
    then (set_all false (concat (slice_to module (- effective module n))) s,
          Raised (if base_model_encoder_layer m is Some _ then TypeError
                  else AttributeError))
    else (s, Returned ()).
Proof.
  destruct (Z.ltb_spec 0 (effective module n)) as [Hpos|Hle].
  - rewrite toggle_effective by done.
    unfold get_base_model_encoder_layer.
    destruct (base_model_encoder_layer m); [|done].
    erewrite bind_returned; [|reflexivity]. by apply bind_raised.
  - unfold toggle_layer_grad. fold (effective module n).
    by destruct (Z.gtb_spec (effective module n) 0); [lia|].
Qed.

Lemma elem_of_concat_take {A : Type} (k : nat) (l : list (list A)) (x : A) :
  x ∈ concat (take k l) → x ∈ concat l.
Proof.
  rewrite <- (take_drop k l) at 2. rewrite concat_app, elem_of_app. by left.
Qed.

Lemma elem_of_concat {A : Type} (ls : list (list A)) (x : A) :
  x ∈ concat ls ↔ ∃ l, l ∈ ls ∧ x ∈ l.
Proof.
  rewrite list_elem_of_In, in_concat. split.
  - intros (l & Hl & Hx). exists l. by rewrite !list_elem_of_In.
  - intros (l & Hl & Hx). exists l. by rewrite <- !list_elem_of_In.
Qed.

Lemma freeze_all_run (m : Model) (s : gmap nat bool) :
  freeze_all m s = (set_all false (parameters m) s, Returned ()).
Proof. apply for_each_set. Qed.

(** ** Zero, negative and absent specs *)

(** C4: for an integer spec that is zero or negative, for the default of
    the parameter, and for a spec that is neither a pair nor an integer, the
    selector returns and leaves every parameter of the model frozen: those
    of each encoder and decoder layer, and all the others; parameters that
    do not belong to the model keep their flag. *)
Theorem C4_nonpositive_or_absent_freezes_all
    (m : Model) (spec : Spec) (s : gmap nat bool) :
  spec = SpecNone ∨ spec = default_n_layers_to_train
    ∨ (∃ n, spec = SpecInt n ∧ n ≤ 0) →
  ∃ s', init_layers m spec s = (s', Returned ())
    ∧ (∀ p, p ∈ parameters m → s' !! p = Some false)
    ∧ (∀ layer, layer ∈ encoder_block m ++ decoder_block m →
         layer_frozen s' layer = true)
    ∧ (∀ p, p ∉ parameters m → s' !! p = s !! p).
Proof.
  intros Hspec. exists (set_all false (parameters m) s).
  assert (Hall : ∀ p, p ∈ parameters m →
            set_all false (parameters m) s !! p = Some false)
    by (intros p Hp; by apply lookup_set_all_elem).
  split; [|split; [done|split]].
  - destruct Hspec as [->|[->|(n & -> & Hn)]]; cbn [init_layers].
    + apply freeze_all_run.
    + apply freeze_all_run.
    + destruct (Z.gtb_spec n 0); [lia|]. apply freeze_all_run.
  - intros layer Hlayer. unfold layer_frozen. apply forallb_forall.
    intros p Hp%list_elem_of_In. unfold frozen. apply bool_decide_eq_true.
    apply Hall. unfold parameters. rewrite !elem_of_app.
    apply elem_of_app in Hlayer as [Hl|Hl].
    + right; left. apply elem_of_concat. eauto.
    + right; right; left. apply elem_of_concat. eauto.
  - intros p Hp. by apply lookup_set_all_not_elem.
Qed.

Lemma C4_nonpositive_or_absent_freezes_all_witness :
  ∃ s', init_layers (t5_like 2 3) (SpecInt (-3)) (all_flags true 6)
        = (s', Returned ())
    ∧ (∀ p, p ∈ parameters (t5_like 2 3) → s' !! p = Some false)
    ∧ (∀ layer, layer ∈ encoder_block (t5_like 2 3) ++ decoder_block (t5_like 2 3) →
         layer_frozen s' layer = true)
    ∧ (∀ p, p ∉ parameters (t5_like 2 3) → s' !! p = all_flags true 6 !! p).
Proof.
  apply (C4_nonpositive_or_absent_freezes_all (t5_like 2 3) (SpecInt (-3))
           (all_flags true 6)).
  right; right. exists (-3). split; [reflexivity|lia].
Defined.

(** ** Counts that do nothing *)

(** C9: [toggle_layer_grad] returns with the store unchanged whenever its
    count is zero or a negative number other than the sentinel; hence a pair
    [(0, d)] leaves the flag of every parameter outside the decoder stack,
    so of every encoder layer, as it was; and a pair of negative counts
    other than the sentinel passes both assertions and returns with the
    store unchanged. *)
Theorem C9_zero_and_negative_counts_are_noops
    (m : Model) (s : gmap nat bool) :
  (∀ spec module n, n = 0 ∨ n < -1 →
     toggle_layer_grad m spec module n s = (s, Returned ()))
  ∧ (∀ d p, p ∉ concat (decoder_block m) →
       (init_layers m (SpecTuple 0 d) s).1 !! p = s !! p)
  ∧ (∀ e d, e < -1 → d < -1 →
       init_layers m (SpecTuple e d) s = (s, Returned ())).
Proof.
  split; [|split].
  - intros spec module n Hn. apply toggle_noop; lia.
  - intros d p Hp. unfold init_layers, assert.
    destruct (Z.leb_spec 0 (Z.of_nat (length (encoder_block m)))); [|lia].
    erewrite bind_returned; [|reflexivity].
    destruct (Z.leb_spec d (Z.of_nat (length (decoder_block m)))).
    + erewrite bind_returned; [|reflexivity].
      erewrite bind_returned; [|apply toggle_noop; lia].
      rewrite toggle_tuple.
      destruct (0 <? effective (decoder_block m) d); [|done].
      cbn [fst]. apply lookup_set_all_not_elem.
      intros Hin. apply Hp. by eapply elem_of_concat_take.
    + by erewrite bind_raised.
  - intros e d He Hd. unfold init_layers, assert.
    destruct (Z.leb_spec e (Z.of_nat (length (encoder_block m)))); [|lia].
    erewrite bind_returned; [|reflexivity].
    destruct (Z.leb_spec d (Z.of_nat (length (decoder_block m)))); [|lia].
    erewrite bind_returned; [|reflexivity].
    erewrite bind_returned; [|apply toggle_noop; lia].
    apply toggle_noop; lia.
Qed.

Lemma C9_zero_and_negative_counts_are_noops_witness :
  toggle_layer_grad (t5_like 2 3) (SpecTuple 0 2) (encoder_block (t5_like 2 3)) 0
    (all_flags true 6) = (all_flags true 6, Returned ())
  ∧ (init_layers (t5_like 2 3) (SpecTuple 0 2) (all_flags true 6)).1 !! 1%nat
    = Some true
  ∧ init_layers (t5_like 2 3) (SpecTuple (-2) (-7)) (all_flags true 6)
    = (all_flags true 6, Returned ()).
Proof.
  pose proof (C9_zero_and_negative_counts_are_noops (t5_like 2 3)
                (all_flags true 6)) as (Htoggle & Hpair & Hneg).
  split; [|split].
  - apply Htoggle. left. reflexivity.
  - rewrite (Hpair 2 1%nat); [reflexivity|]. vm_compute. 
    intros H. repeat (apply elem_of_cons in H as [H|H]; [discriminate|]).
    by apply elem_of_nil in H.
  - apply Hneg; reflexivity.
Defined.

(** ** What the selector does on a pair and on a positive integer *)

(** On a pair, the selector returns only when both counts are without
    effect, and then it has written nothing. *)
Lemma pair_returns_unchanged (m : Model) (e d : Z) (s s' : gmap nat bool) :
  init_layers m (SpecTuple e d) s = (s', Returned ()) →
  s' = s ∧ effective (encoder_block m) e ≤ 0 ∧ effective (decoder_block m) d ≤ 0.
Proof.
  unfold init_layers, assert.
  destruct (Z.leb_spec e (Z.of_nat (length (encoder_block m))));
    [|by erewrite bind_raised].
  erewrite bind_returned; [|reflexivity].
  destruct (Z.leb_spec d (Z.of_nat (length (decoder_block m))));
    [|by erewrite bind_raised].
  erewrite bind_returned; [|reflexivity].
  unfold mbind, Exec_bind. rewrite toggle_tuple.
  destruct (Z.ltb_spec 0 (effective (encoder_block m) e)); [done|].
  rewrite toggle_tuple.
  destruct (Z.ltb_spec 0 (effective (decoder_block m) d)); [done|].
  intros [= <-]. split; [done|lia].
Qed.

(** On a pair within bounds with a count that has effect, the selector
    raises: [AttributeError] when the model has no
    [base_model.encoder.layer], [TypeError] from negating the pair
    otherwise. *)
Lemma pair_with_effect_raises (m : Model) (e d : Z) (s : gmap nat bool) :
  e ≤ Z.of_nat (length (encoder_block m)) →
  d ≤ Z.of_nat (length (decoder_block m)) →
  0 < effective (encoder_block m) e ∨ 0 < effective (decoder_block m) d →
  ∃ s', init_layers m (SpecTuple e d) s
        = (s', Raised (if base_model_encoder_layer m is Some _ then TypeError
                       else AttributeError)).
Proof.
  intros He Hd Heff. unfold init_layers, assert.
  destruct (Z.leb_spec e (Z.of_nat (length (encoder_block m)))); [|lia].
  erewrite bind_returned; [|reflexivity].
  destruct (Z.leb_spec d (Z.of_nat (length (decoder_block m)))); [|lia].
  erewrite bind_returned; [|reflexivity].
  unfold mbind, Exec_bind. rewrite toggle_tuple.
  destruct (Z.ltb_spec 0 (effective (encoder_block m) e)); [by eexists|].
  rewrite toggle_tuple.
  destruct (Z.ltb_spec 0 (effective (decoder_block m) d)); [by eexists|lia].
Qed.

(** The counts the integer branch requests are the ones of the
    decoder-first policy. *)
Lemma int_branch_counts (n D : Z) :
  n_dec_to_train n D = Z.min n D
  ∧ n_enc_to_train n D = Z.max (n - D) 0
  ∧ (0 ≤ D → n_dec_to_train n D + n_enc_to_train n D = n).
Proof.
  unfold n_dec_to_train, n_enc_to_train.
  destruct (Z.ltb_spec n D); lia.
Qed.

(** C1, at the pair [(1, 1)] on a model with two encoder and two decoder
    layers whose flags are all set: the selector freezes the first encoder
    layer and raises ([AttributeError] on a T5-shaped model, [TypeError]
    where [base_model.encoder.layer] exists); the decoder stack is never
    visited, so its first layer is not frozen and the state of the claim is
    not reached. *)
Theorem C1_pair_one_one_raises :
  init_layers (t5_like 2 2) (SpecTuple 1 1) (all_flags true 5)
    = (<[0%nat := false]> (all_flags true 5), Raised AttributeError)
  ∧ init_layers (bert_like 2 2) (SpecTuple 1 1) (all_flags true 5)
    = (<[0%nat := false]> (all_flags true 5), Raised TypeError)
  ∧ last_trainable (<[0%nat := false]> (all_flags true 5))
      (decoder_block (t5_like 2 2)) 1 = false.
Proof. repeat split; vm_compute; reflexivity. Qed.

(** C2, at the example of the specification, [E = 2], [D = 3], [n = 4]: on
    a T5-shaped model the selector raises [AttributeError] after freezing
    the first encoder layer; where [base_model.encoder.layer] is the encoder
    stack it returns with both encoder layers trainable, five trainable
    layers in all; and for [n = 2] no encoder layer is frozen although the
    requested encoder count is zero. *)
Theorem C2_int_four_of_two_plus_three :
  init_layers (t5_like 2 3) (SpecInt 4) (all_flags true 6)
    = (<[0%nat := false]> (all_flags true 6), Raised AttributeError)
  ∧ (∃ s', init_layers (bert_like 2 3) (SpecInt 4) (all_flags true 6)
           = (s', Returned ())
       ∧ count_trainable s' (encoder_block (bert_like 2 3)) = 2%nat
       ∧ count_trainable s' (decoder_block (bert_like 2 3)) = 3%nat)
  ∧ (∃ s', init_layers (t5_like 2 3) (SpecInt 2) (all_flags true 6)
           = (s', Raised AttributeError)
       ∧ n_enc_to_train 2 3 = 0
       ∧ count_trainable s' (encoder_block (t5_like 2 3)) = 2%nat).
Proof.
  split; [vm_compute; reflexivity|]. split.
  - eexists. split; [vm_compute; reflexivity|]. split; vm_compute; reflexivity.
  - eexists. split; [vm_compute; reflexivity|]. split; vm_compute; reflexivity.
Qed.

(** C5, at the default pair [(-1, -1)] of [T5Autoencoder]: the sentinel is
    read as the full layer count, but the loop that should set the flags
    raises instead, whether the flags start all set or all clear; started
    from flags that are all clear, no layer of either stack becomes
    trainable. *)
Theorem C5_sentinel_pair_raises :
  toggle_layer_grad (t5_like 2 3) T5Autoencoder.default_n_layers_to_train
      (encoder_block (t5_like 2 3)) (-1) (all_flags false 6)
    = (all_flags false 6, Raised AttributeError)
  ∧ init_layers (t5_like 2 3) T5Autoencoder.default_n_layers_to_train
      (all_flags false 6)
    = (all_flags false 6, Raised AttributeError)
  ∧ init_layers (bert_like 2 3) T5Autoencoder.default_n_layers_to_train
      (all_flags false 6)
    = (all_flags false 6, Raised TypeError)
  ∧ init_layers (t5_like 2 3) T5Autoencoder.default_n_layers_to_train
      (all_flags true 6)
    = (all_flags true 6, Raised AttributeError)
  ∧ count_trainable (all_flags false 6) (encoder_block (t5_like 2 3)) = 0%nat
  ∧ count_trainable (all_flags false 6) (decoder_block (t5_like 2 3)) = 0%nat.
Proof. repeat split; vm_compute; reflexivity. Qed.

(** ** The constructor of [T5Autoencoder] *)

(** Every step of the execution monad keeps the store when it raises before
    writing; the configuration expansion is such a step. *)
Lemma init_not_mapping (lib : Library) (dataset : pyobj) (name : string)
    (model_config_dict tad bs : pyobj) (tp : float) (spec : Spec)
    (s : gmap nat bool) :
  (∀ d, model_config_dict ≠ OMapping d) →
  init lib dataset name model_config_dict tad bs tp spec s = (s, Raised TypeError).
Proof.
  intros Hnot. unfold init. apply bind_raised.
  destruct model_config_dict as [v|d|n]; [done| |done]. by destruct (Hnot d).
Qed.

Lemma init_returned (lib : Library) (dataset : pyobj) (name : string)
    (model_config_dict tad bs : pyobj) (tp : float) (spec : Spec)
    (s s' : gmap nat bool) (self : Self) :
  init lib dataset name model_config_dict tad bs tp spec s = (s', Returned self) →
  model_config_dict = OMapping (config self)
  ∧ block_size self = bs
  ∧ AbstractTransformerAutoencoder.dataset self = dataset
  ∧ training_args self = tad
  ∧ model self = get_model_class lib (config self).
Proof.
  unfold init. destruct model_config_dict as [v|d|n]; try done.
  erewrite bind_returned; [|reflexivity].
  unfold mbind, Exec_bind.
  destruct (init_layers (get_model_class lib d) spec s) as [s1 [[]|e]]; [|done].
  by intros [= <- <-].
Qed.

(** The constructor on a configuration mapping: the outcome is the
    selector's, and a returned instance has each attribute bound to the
    argument in the corresponding position. *)
Lemma init_mapping (lib : Library) (dataset : pyobj) (name : string)
    (cfg : gmap string pyval) (tad bs : pyobj) (tp : float) (spec : Spec)
    (s : gmap nat bool) :
  init lib dataset name (OMapping cfg) tad bs tp spec s
  = match init_layers (get_model_class lib cfg) spec s with
    | (s', Returned _) =>
        (s', Returned
          {| model_name := name;
             block_size := bs;
             n_layers_to_train := spec;
             AbstractTransformerAutoencoder.dataset := dataset;
             config := cfg;
             model := get_model_class lib cfg;
             n_enc_layers :=
               Z.of_nat (length (encoder_block (get_model_class lib cfg)));
             n_dec_layers :=
               Z.of_nat (length (decoder_block (get_model_class lib cfg)));
             total_attn_layers :=
               Z.of_nat (length (encoder_block (get_model_class lib cfg)))
               + Z.of_nat (length (decoder_block (get_model_class lib cfg)));
             training_args := tad;
             train_pct := tp |})
    | (s', Raised e) => (s', Raised e)
    end.
Proof.
  unfold init. erewrite bind_returned; [|reflexivity].
  unfold mbind, Exec_bind.
  by destruct (init_layers (get_model_class lib cfg) spec s) as [s1 [[]|e]].
Qed.

(** C10, the last clause refuted: a mapping passed as [block_size] is a
    configuration mapping supplied by the caller, and it is the one the
    base constructor expands. *)
Lemma C10_mapping_as_block_size_is_expanded :
  ∃ s' self,
    T5Autoencoder.init (t5_library 2 3) (OScalar (PStr "data"))
      T5Autoencoder.default_model_name
      (OMapping {[ "d_model"%string := PInt 512 ]})
      T5Autoencoder.default_training_args_dict T5Autoencoder.default_ds_limit
      T5Autoencoder.default_train_pct (SpecInt 0) (all_flags true 6)
    = (s', Returned self)
    ∧ config self = {[ "d_model"%string := PInt 512 ]}.
Proof.
  unfold T5Autoencoder.init. rewrite init_mapping.
  destruct (init_layers _ (SpecInt 0) (all_flags true 6)) as [s1 [[]|e]] eqn:Hsel;
    [|vm_compute in Hsel; discriminate].
  eexists _, _. split; reflexivity.
Qed.

(** C10, as the code has it: [T5Autoencoder.__init__] passes [block_size]
    where the base constructor expects [model_config_dict] and [ds_limit]
    where it expects [block_size].  So whenever [block_size] is not a
    mapping, in particular when it is an integer, the constructor raises
    [TypeError] at the [**] expansion without touching any flag; when
    [block_size] is a mapping, that mapping is the configuration expanded,
    the model is built from it, the outcome is the selector's, and the
    instance returned has [block_size] bound to [ds_limit] and [dataset] to
    [data_dir]; so the only configuration the base constructor can expand
    is what the caller passed as [block_size]. *)
Theorem C10_block_size_is_forwarded_as_the_config
    (lib : Library) (data_dir : pyobj) (name : string)
    (block_size training_args_dict ds_limit : pyobj) (tp : float) (spec : Spec)
    (s : gmap nat bool) :
  ((∀ d, block_size ≠ OMapping d) →
     T5Autoencoder.init lib data_dir name block_size training_args_dict
       ds_limit tp spec s = (s, Raised TypeError))
  ∧ (∀ z, block_size = OScalar (PInt z) →
     T5Autoencoder.init lib data_dir name block_size training_args_dict
       ds_limit tp spec s = (s, Raised TypeError))
  ∧ (∀ cfg, block_size = OMapping cfg →
     T5Autoencoder.init lib data_dir name block_size training_args_dict
       ds_limit tp spec s
     = match init_layers (get_model_class lib cfg) spec s with
       | (s', Returned _) =>
           (s', Returned
             {| model_name := name;
                AbstractTransformerAutoencoder.block_size := ds_limit;
                n_layers_to_train := spec;
                AbstractTransformerAutoencoder.dataset := data_dir;
                config := cfg;
                model := get_model_class lib cfg;
                n_enc_layers :=
                  Z.of_nat (length (encoder_block (get_model_class lib cfg)));
                n_dec_layers :=
                  Z.of_nat (length (decoder_block (get_model_class lib cfg)));
                total_attn_layers :=
                  Z.of_nat (length (encoder_block (get_model_class lib cfg)))
                  + Z.of_nat (length (decoder_block (get_model_class lib cfg)));
                training_args := training_args_dict;
                train_pct := tp |})
       | (s', Raised e) => (s', Raised e)
       end)
  ∧ (∀ s' self,
       T5Autoencoder.init lib data_dir name block_size training_args_dict
         ds_limit tp spec s = (s', Returned self) →
       block_size = OMapping (config self)
       ∧ AbstractTransformerAutoencoder.block_size self = ds_limit).
Proof.
  split; [|split; [|split]].
  - intros Hnot. by apply init_not_mapping.
  - intros z ->. by apply init_not_mapping.
  - intros cfg ->. apply init_mapping.
  - intros s' self Hret. apply init_returned in Hret. tauto.
Qed.

Lemma C10_block_size_is_forwarded_as_the_config_witness :
  T5Autoencoder.init (t5_library 2 3) (OScalar (PStr "data"))
    T5Autoencoder.default_model_name T5Autoencoder.default_block_size
    T5Autoencoder.default_training_args_dict T5Autoencoder.default_ds_limit
    T5Autoencoder.default_train_pct T5Autoencoder.default_n_layers_to_train
    (all_flags true 6)
  = (all_flags true 6, Raised TypeError)
  ∧ ∃ s' self,
      T5Autoencoder.init (t5_library 2 3) (OScalar (PStr "data"))
        T5Autoencoder.default_model_name
        (OMapping {[ "d_model"%string := PInt 512 ]})
        T5Autoencoder.default_training_args_dict T5Autoencoder.default_ds_limit
        T5Autoencoder.default_train_pct (SpecInt 0) (all_flags true 6)
      = (s', Returned self)
      ∧ OMapping (config self) = OMapping {[ "d_model"%string := PInt 512 ]}
      ∧ AbstractTransformerAutoencoder.block_size self
        = T5Autoencoder.default_ds_limit.
Proof.
  split.
  - apply (proj1 (proj2 (C10_block_size_is_forwarded_as_the_config
      (t5_library 2 3) (OScalar (PStr "data"))
      T5Autoencoder.default_model_name T5Autoencoder.default_block_size
      T5Autoencoder.default_training_args_dict T5Autoencoder.default_ds_limit
      T5Autoencoder.default_train_pct T5Autoencoder.default_n_layers_to_train
      (all_flags true 6))) 1024).
    reflexivity.
  - destruct (T5Autoencoder.init (t5_library 2 3) (OScalar (PStr "data"))
        T5Autoencoder.default_model_name
        (OMapping {[ "d_model"%string := PInt 512 ]})
        T5Autoencoder.default_training_args_dict T5Autoencoder.default_ds_limit
        T5Autoencoder.default_train_pct (SpecInt 0) (all_flags true 6))
      as [s' [self|e]] eqn:Hinit; [|vm_compute in Hinit; discriminate].
    exists s', self. split; [reflexivity|].
    destruct (proj2 (proj2 (proj2 (C10_block_size_is_forwarded_as_the_config
      (t5_library 2 3) (OScalar (PStr "data"))
      T5Autoencoder.default_model_name
      (OMapping {[ "d_model"%string := PInt 512 ]})
      T5Autoencoder.default_training_args_dict T5Autoencoder.default_ds_limit
      T5Autoencoder.default_train_pct (SpecInt 0) (all_flags true 6))))
      s' self Hinit) as [Hcfg Hbs].
    split; [by rewrite <- Hcfg|exact Hbs].
Defined.

(** ** The training configuration *)

Section Merge.

Context (lib : Library).
Implicit Types (kvs : list (string * pyval)) (obj d : gmap string pyval).

(** The loop of [setattr] calls raises at the first read-only name and
    otherwise assigns every item. *)
Lemma setattr_each_run kvs obj (s : gmap nat bool) :
  setattr_each lib obj kvs s
  = if forallb (λ kv, bool_decide (kv.1 ∉ TrainingArguments_read_only lib)) kvs
    then (s, Returned (foldl (λ o kv, <[kv.1 := kv.2]> o) obj kvs))
    else (s, Raised AttributeError).
Proof.
  revert obj. induction kvs as [|[k v] kvs IH]; intros obj; [done|].
  cbn [setattr_each forallb foldl fst snd]. unfold setattr.
  destruct (decide (k ∈ TrainingArguments_read_only lib)) as [Hro|Hro].
  - rewrite (bool_decide_eq_true_2 _ Hro).
    rewrite bool_decide_eq_false_2 by (intros Hn; by apply Hn). done.
  - rewrite (bool_decide_eq_false_2 _ Hro), (bool_decide_eq_true_2 _ Hro).
    erewrite bind_returned; [|reflexivity]. apply IH.
Qed.

Lemma forallb_items_settable d :
  forallb (λ kv, bool_decide (kv.1 ∉ TrainingArguments_read_only lib))
    (map_to_list d) = true
  ↔ ∀ k, k ∈ dom d → k ∉ TrainingArguments_read_only lib.
Proof.
  rewrite forallb_forall. split.
  - intros Hall k Hk. apply elem_of_dom in Hk as [v Hv].
    apply elem_of_map_to_list, list_elem_of_In in Hv.
    apply Hall in Hv. by apply bool_decide_eq_true in Hv.
  - intros Hall [k v] Hkv%list_elem_of_In%elem_of_map_to_list.
    apply bool_decide_eq_true, Hall, elem_of_dom. by exists v.
Qed.

Lemma lookup_foldl_insert kvs obj (k : string) :
  NoDup kvs.*1 →
  foldl (λ o kv, <[kv.1 := kv.2]> o) obj kvs !! k
  = match (list_to_map kvs : gmap string pyval) !! k with
    | Some v => Some v
    | None => obj !! k
    end.
Proof.
  revert obj. induction kvs as [|[k0 v0] kvs IH]; intros obj Hnd; [done|].
  cbn [foldl fst snd]. apply NoDup_cons in Hnd as [Hk0 Hnd].
  rewrite IH by done. cbn [list_to_map foldr].
  destruct (decide (k0 = k)) as [->|Hne].
  - rewrite (not_elem_of_list_to_map_1 _ _ Hk0).
    by rewrite !lookup_insert_eq.
  - by rewrite !lookup_insert_ne.
Qed.

Lemma lookup_override d obj (k : string) :
  (d ∪ obj) !! k = match d !! k with Some v => Some v | None => obj !! k end.
Proof.
  destruct (d !! k) as [v|] eqn:Hk.
  - by apply lookup_union_Some_l.
  - by apply lookup_union_r.
Qed.

Lemma foldl_insert_items d obj :
  foldl (λ o kv, <[kv.1 := kv.2]> o) obj (map_to_list d) = d ∪ obj.
Proof.
  apply map_eq. intros k.
  rewrite lookup_foldl_insert by apply NoDup_fst_map_to_list.
  by rewrite list_to_map_to_list, lookup_override.
Qed.

(** The merge on a mapping: the overrides over the defaults when every key
    can be set, [AttributeError] otherwise. *)
Lemma merge_mapping_run (self : Self) (now : datetime) d (s : gmap nat bool) :
  training_args self = OMapping d →
  merge_training_args lib self now s
  = if forallb (λ kv, bool_decide (kv.1 ∉ TrainingArguments_read_only lib))
         (map_to_list d)
    then (s, Returned (d ∪ default_training_args lib (model_name self) now))
    else (s, Raised AttributeError).
Proof.
  intros Hd. unfold merge_training_args. rewrite Hd. cbn [truthy].
  case_bool_decide as Hempty; cbn [negb].
  - subst d. rewrite map_to_list_empty. cbn [forallb].
    by rewrite (left_id_L ∅ (∪)).
  - erewrite bind_returned; [|reflexivity].
    by rewrite setattr_each_run, foldl_insert_items.
Qed.

Lemma merge_mapping (self : Self) (now : datetime) d (s : gmap nat bool) :
  training_args self = OMapping d →
  (∀ k, k ∈ dom d → k ∉ TrainingArguments_read_only lib) →
  merge_training_args lib self now s
  = (s, Returned (d ∪ default_training_args lib (model_name self) now)).
Proof.
  intros Hd Hset. rewrite (merge_mapping_run self now d s Hd).
  by rewrite (proj2 (forallb_items_settable d) Hset).
Qed.


Lemma merge_settable (self : Self) (now : datetime) (s : gmap nat bool) :
  settable lib (training_args self) →
  ∃ cfg, merge_training_args lib self now s = (s, Returned cfg).
Proof.
  intros [Hnone|(d & Hd & Hset)].
  - eexists. unfold merge_training_args. by rewrite Hnone.
  - eexists. by apply merge_mapping.
Qed.

End Merge.



(** ** Binary64 arithmetic *)

Section Digits.

Lemma digits2_pos_bounds (p : positive) :
  2 ^ (Z.pos (digits2_pos p) - 1) ≤ Z.pos p < 2 ^ Z.pos (digits2_pos p).
Proof.
  induction p as [p IH|p IH|]; cbn [digits2_pos]; [| |cbn; lia].
  - rewrite Pos2Z.inj_succ.
    replace (Z.succ (Z.pos (digits2_pos p)) - 1) with (Z.succ (Z.pos (digits2_pos p) - 1)) by lia.
    rewrite !Z.pow_succ_r by lia. lia.
  - rewrite Pos2Z.inj_succ.
    replace (Z.succ (Z.pos (digits2_pos p)) - 1) with (Z.succ (Z.pos (digits2_pos p) - 1)) by lia.
    rewrite !Z.pow_succ_r by lia. lia.
Qed.

Lemma Zdigits2_nonneg (m : Z) : 0 ≤ Zdigits2 m.
Proof. destruct m; cbn; lia. Qed.

Lemma Zdigits2_bounds (m : Z) :
  0 < m → 2 ^ (Zdigits2 m - 1) ≤ m < 2 ^ Zdigits2 m.
Proof. destruct m as [|p|p]; try lia. intros _. apply digits2_pos_bounds. Qed.

Lemma Zdigits2_le_of_lt_pow (m d : Z) :
  0 ≤ d → 0 ≤ m < 2 ^ d → Zdigits2 m ≤ d.
Proof.
  intros Hd [Hm0 Hm]. destruct (Z.eq_dec m 0) as [->|Hne]; [cbn; lia|].
  destruct (Zdigits2_bounds m) as [Hlo _]; [lia|].
  destruct (Z.le_gt_cases (Zdigits2 m) d) as [|Hgt]; [done|]. exfalso.
  assert (2 ^ d ≤ 2 ^ (Zdigits2 m - 1)) by (apply Z.pow_le_mono_r; lia). lia.
Qed.

Lemma Zdigits2_mono (a b : Z) : 0 ≤ a ≤ b → Zdigits2 a ≤ Zdigits2 b.
Proof.
  intros [Ha Hab]. destruct (Z.eq_dec b 0) as [->|Hb].
  - by replace a with 0 by lia.
  - apply Zdigits2_le_of_lt_pow; [apply Zdigits2_nonneg|].
    destruct (Zdigits2_bounds b); lia.
Qed.

Lemma Zdigits2_ge_of_pow_le (m d : Z) :
  0 ≤ d → 2 ^ d ≤ m → d + 1 ≤ Zdigits2 m.
Proof.
  intros Hd Hm. assert (0 < m) by (pose proof (Z.pow_pos_nonneg 2 d); lia).
  destruct (Zdigits2_bounds m) as [_ Hhi]; [done|].
  destruct (Z.le_gt_cases (d + 1) (Zdigits2 m)) as [|Hlt]; [done|]. exfalso.
  assert (2 ^ Zdigits2 m ≤ 2 ^ d) by (apply Z.pow_le_mono_r; lia). lia.
Qed.

End Digits.

Section Shift.

Lemma shr_1_m (mrs : shr_record) :
  0 ≤ shr_m mrs → shr_m (shr_1 mrs) = shr_m mrs / 2.
Proof.
  destruct mrs as [m r s']. cbn [shr_m shr_1]. intros Hm.
  destruct m as [|[p|p|]|p]; cbn [shr_m]; try lia.
  all: try done.
  - rewrite Pos2Z.inj_xI. apply Z.div_unique with 1; lia.
  - rewrite Pos2Z.inj_xO. apply Z.div_unique with 0; lia.
Qed.

Lemma iter_pos_shr_1_m (n : positive) (mrs : shr_record) :
  0 ≤ shr_m mrs → shr_m (SpecFloat.iter_pos shr_1 n mrs) = shr_m mrs / 2 ^ Z.pos n.
Proof.
  revert mrs. induction n as [n IH|n IH|]; intros mrs Hm; cbn [SpecFloat.iter_pos];
    try assert (Hpow : 0 < 2 ^ Z.pos n) by (apply Z.pow_pos_nonneg; lia).
  - assert (H1 : 0 ≤ shr_m (shr_1 mrs)) by (rewrite shr_1_m by done; apply Z.div_pos; lia).
    assert (H2 : 0 ≤ shr_m (SpecFloat.iter_pos shr_1 n (shr_1 mrs)))
      by (rewrite IH by done; apply Z.div_pos; lia).
    assert (Hp : 2 ^ Z.pos n~1 = 2 * 2 ^ Z.pos n * 2 ^ Z.pos n).
    { rewrite <- Z.mul_assoc, <- Z.pow_add_r, <- Z.pow_succ_r by lia. f_equal. lia. }
    rewrite IH, IH, shr_1_m by done.
    rewrite (Z.div_div (shr_m mrs) 2) by lia.
    rewrite Z.div_div by lia. by rewrite Hp.
  - assert (H2 : 0 ≤ shr_m (SpecFloat.iter_pos shr_1 n mrs))
      by (rewrite IH by done; apply Z.div_pos; lia).
    assert (Hp : 2 ^ Z.pos n~0 = 2 ^ Z.pos n * 2 ^ Z.pos n).
    { rewrite <- Z.pow_add_r by lia. f_equal. lia. }
    rewrite IH, IH by done. rewrite !Z.div_div by lia. by rewrite Hp.
  - rewrite shr_1_m by done. by rewrite Z.pow_1_r.
Qed.

Lemma shr_m_of_loc (m : Z) (l : location) : shr_m (shr_record_of_loc m l) = m.
Proof. by destruct l as [|[]]. Qed.

(** [shr] shifts the mantissa right by [n] places when [n] is positive. *)
Lemma shr_spec (mrs : shr_record) (e n : Z) :
  0 ≤ shr_m mrs →
  shr_m (shr mrs e n).1 = shr_m mrs / 2 ^ Z.max n 0
  ∧ (shr mrs e n).2 = e + Z.max n 0.
Proof.
  intros Hm. destruct n as [|p|p]; cbn [shr fst snd].
  - rewrite Z.div_1_r. lia.
  - rewrite iter_pos_shr_1_m by done. split; [f_equal|]; f_equal; lia.
  - cbn. rewrite Z.div_1_r. lia.
Qed.

Lemma round_nearest_even_bounds (m : Z) (l : location) :
  m ≤ round_nearest_even m l ≤ m + 1.
Proof. destruct l as [|[]]; cbn; try lia. destruct (Z.even m); lia. Qed.

End Shift.

Section Rounding.

Lemma Zdigits2_div_pow (m n : Z) :
  0 ≤ m → 0 ≤ n → Zdigits2 (m / 2 ^ n) + n ≤ Z.max (Zdigits2 m) n.
Proof.
  intros Hm Hn. assert (Hpow : 0 < 2 ^ n) by (apply Z.pow_pos_nonneg; lia).
  destruct (Z.eq_dec m 0) as [->|Hne]; [rewrite Z.div_0_l by lia; cbn; lia|].
  destruct (Zdigits2_bounds m) as [_ Hhi]; [lia|].
  destruct (Z.le_gt_cases n (Zdigits2 m)) as [Hle|Hgt].
  - enough (Zdigits2 (m / 2 ^ n) ≤ Zdigits2 m - n) by lia.
    apply Zdigits2_le_of_lt_pow; [lia|]. split; [apply Z.div_pos; lia|].
    apply Z.div_lt_upper_bound; [done|].
    rewrite <- Z.pow_add_r by lia. by replace (n + (Zdigits2 m - n)) with (Zdigits2 m) by lia.
  - assert (2 ^ Zdigits2 m ≤ 2 ^ n) by (apply Z.pow_le_mono_r; lia).
    rewrite Z.div_small by lia. cbn. lia.
Qed.

Lemma Zdigits2_succ_le (m k : Z) : 0 ≤ m → k ≤ m + 1 → 0 ≤ k → Zdigits2 k ≤ Zdigits2 m + 1.
Proof.
  intros Hm Hk Hk0. pose proof (Zdigits2_nonneg m).
  apply Zdigits2_le_of_lt_pow; [lia|]. split; [done|].
  rewrite Z.pow_add_r, Z.pow_1_r by lia.
  destruct (Z.eq_dec m 0) as [->|Hne]; [cbn in *; lia|].
  destruct (Zdigits2_bounds m); lia.
Qed.

Lemma Zdigits2_mul (a b : Z) : 0 < a → 0 < b → Zdigits2 (a * b) ≤ Zdigits2 a + Zdigits2 b.
Proof.
  intros Ha Hb. pose proof (Zdigits2_nonneg a). pose proof (Zdigits2_nonneg b).
  destruct (Zdigits2_bounds a) as [_ Ha']; [done|].
  destruct (Zdigits2_bounds b) as [_ Hb']; [done|].
  apply Zdigits2_le_of_lt_pow; [lia|]. rewrite Z.pow_add_r by lia. nia.
Qed.

(** The two normalisation steps of [binary_round_aux], in arithmetic. *)
Lemma binary_round_aux_spec (sx : bool) (mx ex : Z) (lx : location) :
  0 ≤ mx →
  let n1 := Z.max (fexp prec emax (Zdigits2 mx + ex) - ex) 0 in
  ∃ m1, mx / 2 ^ n1 ≤ m1 ≤ mx / 2 ^ n1 + 1
    ∧ let e1 := ex + n1 in
      let n2 := Z.max (fexp prec emax (Zdigits2 m1 + e1) - e1) 0 in
      binary_round_aux prec emax sx mx ex lx
      = match m1 / 2 ^ n2 with
        | 0 => S754_zero sx
        | Z.pos m => if e1 + n2 <=? emax - prec then S754_finite sx m (e1 + n2)
                     else S754_infinity sx
        | Z.neg _ => S754_nan
        end.
Proof.
  intros Hmx n1. unfold binary_round_aux, shr_fexp.
  pose proof (shr_spec (shr_record_of_loc mx lx) ex
    (fexp prec emax (Zdigits2 mx + ex) - ex)) as [Hm1 He1];
    [by rewrite shr_m_of_loc|].
  rewrite shr_m_of_loc in Hm1. fold n1 in Hm1, He1.
  destruct (shr (shr_record_of_loc mx lx) ex _) as [mrs1 e1]. cbn [fst snd] in Hm1, He1.
  set (m1 := round_nearest_even (shr_m mrs1) (loc_of_shr_record mrs1)).
  pose proof (round_nearest_even_bounds (shr_m mrs1) (loc_of_shr_record mrs1)) as Hr.
  fold m1 in Hr. rewrite Hm1 in Hr. exists m1. split; [done|]. cbn zeta.
  assert (0 ≤ mx / 2 ^ n1) by (apply Z.div_pos; [done|apply Z.pow_pos_nonneg; lia]).
  pose proof (shr_spec (shr_record_of_loc m1 loc_Exact) e1
    (fexp prec emax (Zdigits2 m1 + e1) - e1)) as [Hm2 He2];
    [rewrite shr_m_of_loc; lia|].
  rewrite shr_m_of_loc in Hm2.
  destruct (shr (shr_record_of_loc m1 loc_Exact) e1 _) as [mrs2 e2].
  cbn [fst snd] in Hm2, He2. subst e1. by rewrite Hm2, He2.
Qed.

(** No overflow: a positive mantissa of magnitude below [2 ^ B] rounds to
    zero or to a finite float of magnitude at most [2 ^ (B + 1)]. *)
Lemma binary_round_aux_finite (sx : bool) (mx ex : Z) (lx : location) (B : Z) :
  0 < mx → ex ≤ 971 → -1074 ≤ B ≤ 1023 → Zdigits2 mx + ex ≤ B →
  binary_round_aux prec emax sx mx ex lx = S754_zero sx
  ∨ ∃ m e, binary_round_aux prec emax sx mx ex lx = S754_finite sx m e
      ∧ Zdigits2 (Z.pos m) + e ≤ B + 1 ∧ e ≤ 971.
Proof.
  intros Hmx Hex HB Hd.
  destruct (binary_round_aux_spec sx mx ex lx) as (m1 & Hm1 & ->); [lia|].
  set (n1 := Z.max (fexp prec emax (Zdigits2 mx + ex) - ex) 0) in *.
  set (e1 := ex + n1). 
  set (n2 := Z.max (fexp prec emax (Zdigits2 m1 + e1) - e1) 0).
  assert (Hq0 : 0 ≤ mx / 2 ^ n1) by (apply Z.div_pos; [lia|apply Z.pow_pos_nonneg; lia]).
  pose proof (Zdigits2_div_pow mx n1 ltac:(lia) ltac:(lia)) as Hq.
  pose proof (Zdigits2_succ_le (mx / 2 ^ n1) m1 Hq0 ltac:(lia) ltac:(lia)) as Hm1d.
  pose proof (Zdigits2_div_pow m1 n2 ltac:(lia) ltac:(lia)) as Hm2d.
  pose proof (Zdigits2_nonneg mx). pose proof (Zdigits2_nonneg m1).
  assert (He1 : Zdigits2 m1 + e1 ≤ B + 1 ∧ e1 ≤ 971).
  { unfold e1, n1, fexp, SpecFloat.emin, prec, emax in *. lia. }
  assert (He2 : Zdigits2 (m1 / 2 ^ n2) + (e1 + n2) ≤ B + 1 ∧ e1 + n2 ≤ 971).
  { unfold n2, fexp, SpecFloat.emin, prec, emax in *. lia. }
  destruct (m1 / 2 ^ n2) as [|m|m] eqn:Hm2; [by left| |].
  - right. exists m, (e1 + n2).
    unfold emax, prec. destruct (Z.leb_spec (e1 + n2) (1024 - 53)); [done|lia].
  - assert (0 ≤ m1 / 2 ^ n2) by (apply Z.div_pos; [lia|apply Z.pow_pos_nonneg; lia]). lia.
Qed.

End Rounding.

Section Product.

Lemma Pos_iter_xO (m d : positive) : Z.pos (Pos.iter xO m d) = Z.pos m * 2 ^ Z.pos d.
Proof.
  induction d as [|d IH] using Pos.peano_ind.
  - cbn. lia.
  - rewrite Pos.iter_succ, Pos2Z.inj_xO, IH, Pos2Z.inj_succ, Z.pow_succ_r by lia. lia.
Qed.

Lemma shl_align_bounds (mx : positive) (ex ex' : Z) :
  let '(mz, ez) := shl_align mx ex ex' in
  Zdigits2 (Z.pos mz) + ez ≤ Zdigits2 (Z.pos mx) + ex ∧ ez ≤ ex.
Proof.
  unfold shl_align. destruct (ex' - ex) as [|d|d] eqn:Hd; [lia|lia|].
  rewrite Pos_iter_xO. split; [|lia].
  enough (Zdigits2 (Z.pos mx * 2 ^ Z.pos d) ≤ Zdigits2 (Z.pos mx) + Z.pos d) by lia.
  destruct (Zdigits2_bounds (Z.pos mx)) as [_ Hhi]; [lia|].
  pose proof (Zdigits2_nonneg (Z.pos mx)).
  assert (0 < 2 ^ Z.pos d) by (apply Z.pow_pos_nonneg; lia).
  apply Zdigits2_le_of_lt_pow; [lia|]. rewrite Z.pow_add_r by lia. nia.
Qed.

Lemma binary_normalize_below (n : Z) :
  0 ≤ n < 2 ^ 63 → nonneg_below 64 (binary_normalize prec emax n 0 false).
Proof.
  intros [Hn0 Hn]. destruct n as [|p|p]; [by left| |lia].
  cbn [binary_normalize]. unfold binary_round.
  pose proof (shl_align_bounds p 0 (fexp prec emax (Z.pos (digits2_pos p) + 0))) as Hal.
  destruct (shl_align p 0 _) as [mz ez]. destruct Hal as [Hd He].
  assert (Zdigits2 (Z.pos p) ≤ 63) by (apply Zdigits2_le_of_lt_pow; lia).
  destruct (binary_round_aux_finite false (Z.pos mz) ez loc_Exact 63) as [->|(m & e & -> & ? & ?)];
    [lia|lia|lia|lia|by left|].
  right. exists m, e. split; [done|lia].
Qed.

Lemma in_open_unit_finite (p : float) :
  in_open_unit p = true →
  ∃ m e, p = S754_finite false m e ∧ Zdigits2 (Z.pos m) + e ≤ 0 ∧ e ≤ -52.
Proof.
  unfold in_open_unit. rewrite !andb_true_iff. intros [[Hvalid Hpos] Hlt].
  destruct p as [s|s| |s m e]; try done; [by destruct s|].
  destruct s; [done|]. exists m, e. split; [done|].
  cbn [valid_binary] in Hvalid. unfold bounded, canonical_mantissa in Hvalid.
  apply andb_true_iff in Hvalid as [Hcan _]. apply Z.eqb_eq in Hcan.
  change (Z.pos (digits2_pos m)) with (Zdigits2 (Z.pos m)) in Hcan.
  assert (Hone : ∃ q, SFone prec emax = S754_finite false q (-52) ∧ Z.pos q = 2 ^ 52)
    by (by eexists).
  destruct Hone as (q & Hone & Hq). rewrite Hone in Hlt. clear Hone.
  unfold SFltb, SFcompare in Hlt.
  destruct (Z.compare_spec e (-52)) as [->|He|He]; [| |done].
  - rewrite Pos.compare_cont_spec in Hlt. cbn [Pos.switch_Eq] in Hlt.
    destruct (Pos.compare_spec m q) as [|Hc|]; try done.
    assert (Zdigits2 (Z.pos m) ≤ 52) by (apply Zdigits2_le_of_lt_pow; lia). lia.
  - unfold fexp, SpecFloat.emin, prec, emax in Hcan. lia.
Qed.

Lemma SFmul_below (f p : float) :
  nonneg_below 64 f → in_open_unit p = true →
  nonneg_below 65 (SFmul prec emax f p).
Proof.
  intros Hf Hp. apply in_open_unit_finite in Hp as (mp & ep & -> & Hdp & Hep).
  destruct Hf as [->|(mf & ef & -> & Hdf & Hef)]; [by left|].
  cbn [SFmul xorb].
  pose proof (Zdigits2_mul (Z.pos mf) (Z.pos mp) ltac:(lia) ltac:(lia)) as Hmul.
  destruct (binary_round_aux_finite false (Z.pos (mf * mp)) (ef + ep) loc_Exact 64)
    as [->|(m & e & -> & ? & ?)]; [lia|lia|lia| |by left|].
  - rewrite Pos2Z.inj_mul. lia.
  - right. exists m, e. split; [done|lia].
Qed.

End Product.

Section Exact.

(** A mantissa already at its exponent is kept as it is. *)
Lemma binary_round_aux_exact (sx : bool) (m : positive) (ex : Z) :
  fexp prec emax (Zdigits2 (Z.pos m) + ex) - ex ≤ 0 →
  binary_round_aux prec emax sx (Z.pos m) ex loc_Exact
  = if ex <=? emax - prec then S754_finite sx m ex else S754_infinity sx.
Proof.
  intros Hn. unfold binary_round_aux, shr_fexp.
  assert (Hshr : ∀ mrs, shr mrs ex (fexp prec emax (Zdigits2 (Z.pos m) + ex) - ex)
                        = (mrs, ex)).
  { intros mrs. destruct (fexp prec emax (Zdigits2 (Z.pos m) + ex) - ex); [done|lia|done]. }
  rewrite Hshr. cbn [shr_record_of_loc shr_m loc_of_shr_record round_nearest_even].
  by rewrite Hshr.
Qed.

Lemma pow_split (a b : Z) : 0 ≤ a → 0 ≤ b → 2 ^ (a + b) = 2 ^ a * 2 ^ b.
Proof. intros. by rewrite Z.pow_add_r. Qed.

Lemma div_pow_lt (a N j k : Z) :
  0 ≤ j → 0 ≤ k → a < N * 2 ^ (j + k) → a / 2 ^ k < N * 2 ^ j.
Proof.
  intros Hj Hk Ha. assert (0 < 2 ^ k) by (apply Z.pow_pos_nonneg; lia).
  apply Z.div_lt_upper_bound; [done|]. rewrite pow_split in Ha by done. lia.
Qed.

Lemma div_pow_le (a N j k : Z) :
  0 ≤ j → 0 ≤ k → a ≤ N * 2 ^ (j + k) → a / 2 ^ k ≤ N * 2 ^ j.
Proof.
  intros Hj Hk Ha. assert (0 < 2 ^ k) by (apply Z.pow_pos_nonneg; lia).
  apply Z.div_le_upper_bound; [done|]. rewrite pow_split in Ha by done. lia.
Qed.

(** Rounding a positive value below the integer [N < 2 ^ 53] gives a float
    whose integer part is at most [N]. *)
Lemma binary_round_aux_trunc_le (X : positive) (E N : Z) :
  0 < N < 2 ^ 53 → E ≤ 0 → Z.pos X < N * 2 ^ (- E) →
  match binary_round_aux prec emax false (Z.pos X) E loc_Exact with
  | S754_zero _ => True
  | S754_finite _ m e => Z.shiftl (Z.pos m) e ≤ N
  | _ => True
  end.
Proof.
  intros HN HE HX.
  destruct (Z.le_gt_cases (fexp prec emax (Zdigits2 (Z.pos X) + E) - E) 0) as [Hn1|Hn1].
  - rewrite binary_round_aux_exact by done.
    destruct (E <=? emax - prec); [|done].
    rewrite Z.shiftl_div_pow2 by lia.
    assert (0 < 2 ^ (- E)) by (apply Z.pow_pos_nonneg; lia).
    apply Z.lt_le_incl, Z.div_lt_upper_bound; lia.
  - destruct (binary_round_aux_spec false (Z.pos X) E loc_Exact) as (m1 & Hm1 & ->); [lia|].
    set (n1 := Z.max (fexp prec emax (Zdigits2 (Z.pos X) + E) - E) 0) in *.
    set (e1 := E + n1).
    set (n2 := Z.max (fexp prec emax (Zdigits2 m1 + e1) - e1) 0).
    assert (Hpow53 : 0 < 2 ^ (- E)) by (apply Z.pow_pos_nonneg; lia).
    assert (HdX : Zdigits2 (Z.pos X) + E ≤ 53).
    { enough (Zdigits2 (Z.pos X) ≤ 53 + - E) by lia.
      apply Zdigits2_le_of_lt_pow; [lia|]. rewrite pow_split by lia. nia. }
    assert (He1 : e1 ≤ 0 ∧ 0 < n1 ∧ e1 = E + n1).
    { unfold e1, n1, fexp, SpecFloat.emin, prec, emax in *. lia. }
    destruct He1 as (He1 & Hn1' & He1').
    assert (Hq0 : 0 ≤ Z.pos X / 2 ^ n1)
      by (apply Z.div_pos; [lia|apply Z.pow_pos_nonneg; lia]).
    assert (Hm1N : m1 ≤ N * 2 ^ (- e1)).
    { enough (Z.pos X / 2 ^ n1 < N * 2 ^ (- e1)) by lia.
      apply div_pow_lt; [lia|lia|]. by replace (- e1 + n1) with (- E) by lia. }
    assert (Hpow1 : 0 < 2 ^ (- e1)) by (apply Z.pow_pos_nonneg; lia).
    assert (Hdm1 : Zdigits2 m1 + e1 ≤ 53).
    { enough (Zdigits2 m1 ≤ 53 + - e1) by lia.
      apply Zdigits2_le_of_lt_pow; [lia|]. rewrite pow_split by lia. nia. }
    assert (He2 : e1 + n2 ≤ 0 ∧ 0 ≤ n2).
    { unfold n2, fexp, SpecFloat.emin, prec, emax in *. lia. }
    destruct (m1 / 2 ^ n2) as [|m|m] eqn:Hm2; [done| |done].
    destruct (e1 + n2 <=? emax - prec); [|done].
    rewrite Z.shiftl_div_pow2 by lia. rewrite <- Hm2.
    assert (0 < 2 ^ (- (e1 + n2))) by (apply Z.pow_pos_nonneg; lia).
    apply Z.div_le_upper_bound; [done|].
    assert (m1 / 2 ^ n2 ≤ N * 2 ^ (- (e1 + n2))).
    { apply div_pow_le; [lia|lia|]. by replace (- (e1 + n2) + n2) with (- e1) by lia. }
    lia.
Qed.

Lemma binary_normalize_exact (N : Z) :
  0 < N < 2 ^ 53 →
  ∃ m e, binary_normalize prec emax N 0 false = S754_finite false m e
    ∧ -52 ≤ e ≤ 0 ∧ Z.pos m = N * 2 ^ (- e).
Proof.
  intros [HN0 HN]. destruct N as [|p|p]; [lia| |lia].
  cbn [binary_normalize]. unfold binary_round.
  assert (Hd : 1 ≤ Zdigits2 (Z.pos p) ≤ 53).
  { split; [|apply Zdigits2_le_of_lt_pow; lia].
    apply (Zdigits2_ge_of_pow_le (Z.pos p) 0); lia. }
  change (Z.pos (digits2_pos p)) with (Zdigits2 (Z.pos p)).
  assert (Hfexp : fexp prec emax (Zdigits2 (Z.pos p) + 0) = Zdigits2 (Z.pos p) - 53)
    by (unfold fexp, SpecFloat.emin, prec, emax; lia).
  rewrite Hfexp.
  pose proof (shl_align_bounds p 0 (Zdigits2 (Z.pos p) - 53)) as Hal.
  unfold shl_align in *.
  destruct (Zdigits2 (Z.pos p) - 53 - 0) as [|d|d] eqn:Hshift; [|lia|].
  - exists p, 0. rewrite binary_round_aux_exact.
    + split; [done|]. split; [lia|]. cbn. lia.
    + unfold fexp, SpecFloat.emin, prec, emax. lia.
  - destruct Hal as [Hal _].
    exists (Pos.iter xO p d), (Zdigits2 (Z.pos p) - 53).
    rewrite binary_round_aux_exact.
    + destruct (Z.leb_spec (Zdigits2 (Z.pos p) - 53) (emax - prec)) as [_|Hbad];
        [|unfold emax, prec in Hbad; lia].
      split; [done|]. split; [lia|]. rewrite Pos_iter_xO. do 2 f_equal. lia.
    + unfold fexp, SpecFloat.emin, prec, emax. lia.
Qed.

End Exact.

(** ** [int(N * train_pct)] against the exact floor *)

Section NearFloor.

Lemma div_succ_le (q b : Z) : 0 < b → (q + 1) / b ≤ q / b + 1.
Proof.
  intros Hb. replace (q / b + 1) with ((q + 1 * b) / b)
    by (rewrite Z.div_add by lia; lia).
  apply Z.div_le_mono; lia.
Qed.

(** Rounding a positive value below [N < 2 ^ 53] and truncating gives the
    floor of the value or one more. *)
Lemma binary_round_aux_trunc_near (X : positive) (E N : Z) (s : gmap nat bool) :
  0 < N < 2 ^ 53 → E ≤ 0 → Z.pos X < N * 2 ^ (- E) →
  ∃ t, int_of_float (binary_round_aux prec emax false (Z.pos X) E loc_Exact) s
       = (s, Returned t)
    ∧ Z.pos X / 2 ^ (- E) ≤ t ≤ Z.pos X / 2 ^ (- E) + 1.
Proof.
  intros HN HE HX.
  destruct (Z.le_gt_cases (fexp prec emax (Zdigits2 (Z.pos X) + E) - E) 0) as [Hn1|Hn1].
  - rewrite binary_round_aux_exact by done.
    destruct (Z.leb_spec E (emax - prec)) as [_|Hbad]; [|unfold emax, prec in Hbad; lia].
    eexists. split; [reflexivity|]. cbn [cond_Zopp].
    rewrite Z.shiftl_div_pow2 by lia. lia.
  - destruct (binary_round_aux_spec false (Z.pos X) E loc_Exact) as (m1 & Hm1 & ->); [lia|].
    set (n1 := Z.max (fexp prec emax (Zdigits2 (Z.pos X) + E) - E) 0) in *.
    set (e1 := E + n1).
    set (n2 := Z.max (fexp prec emax (Zdigits2 m1 + e1) - e1) 0).
    assert (Hpow53 : 0 < 2 ^ (- E)) by (apply Z.pow_pos_nonneg; lia).
    assert (HdX : Zdigits2 (Z.pos X) + E ≤ 53).
    { enough (Zdigits2 (Z.pos X) ≤ 53 + - E) by lia.
      apply Zdigits2_le_of_lt_pow; [lia|]. rewrite pow_split by lia. nia. }
    assert (He1 : e1 ≤ 0 ∧ 0 < n1 ∧ e1 = E + n1).
    { unfold e1, n1, fexp, SpecFloat.emin, prec, emax in *. lia. }
    destruct He1 as (He1 & Hn1' & He1').
    assert (Hpown1 : 0 < 2 ^ n1) by (apply Z.pow_pos_nonneg; lia).
    assert (Hq0 : 0 ≤ Z.pos X / 2 ^ n1) by (apply Z.div_pos; lia).
    assert (Hm1N : m1 ≤ N * 2 ^ (- e1)).
    { enough (Z.pos X / 2 ^ n1 < N * 2 ^ (- e1)) by lia.
      apply div_pow_lt; [lia|lia|]. by replace (- e1 + n1) with (- E) by lia. }
    assert (Hpow1 : 0 < 2 ^ (- e1)) by (apply Z.pow_pos_nonneg; lia).
    assert (Hdm1 : Zdigits2 m1 + e1 ≤ 53).
    { enough (Zdigits2 m1 ≤ 53 + - e1) by lia.
      apply Zdigits2_le_of_lt_pow; [lia|]. rewrite pow_split by lia. nia. }
    assert (He2 : e1 + n2 ≤ 0 ∧ 0 ≤ n2).
    { unfold n2, fexp, SpecFloat.emin, prec, emax in *. lia. }
    destruct He2 as [He2 Hn2].
    assert (Hpown2 : 0 < 2 ^ n2) by (apply Z.pow_pos_nonneg; lia).
    assert (Hpowe2 : 0 < 2 ^ (- (e1 + n2))) by (apply Z.pow_pos_nonneg; lia).
    (* the two shifts compose into one division *)
    assert (HT : m1 / 2 ^ n2 / 2 ^ (- (e1 + n2)) = m1 / 2 ^ (- e1)).
    { rewrite Z.div_div by lia. rewrite <- pow_split by lia.
      by replace (n2 + - (e1 + n2)) with (- e1) by lia. }
    assert (HF : Z.pos X / 2 ^ (- E) = Z.pos X / 2 ^ n1 / 2 ^ (- e1)).
    { rewrite Z.div_div by lia. rewrite <- pow_split by lia.
      by replace (n1 + - e1) with (- E) by lia. }
    assert (Hlo : Z.pos X / 2 ^ (- E) ≤ m1 / 2 ^ (- e1))
      by (rewrite HF; apply Z.div_le_mono; lia).
    assert (Hhi : m1 / 2 ^ (- e1) ≤ Z.pos X / 2 ^ (- E) + 1).
    { rewrite HF. etrans; [|apply div_succ_le; lia]. apply Z.div_le_mono; lia. }
    destruct (m1 / 2 ^ n2) as [|m|m] eqn:Hm2.
    + exists 0. split; [done|]. rewrite Z.div_0_l in HT by lia. lia.
    + destruct (Z.leb_spec (e1 + n2) (emax - prec)) as [_|Hbad];
        [|unfold emax, prec in Hbad; lia].
      eexists. split; [reflexivity|]. cbn [cond_Zopp].
      rewrite Z.shiftl_div_pow2 by lia. lia.
    + assert (0 ≤ m1 / 2 ^ n2) by (apply Z.div_pos; lia). lia.
Qed.

End NearFloor.

(** ** The sizes of the split *)

Section Sizes.

Implicit Types (N n : Z) (p : float) (s : gmap nat bool).

Lemma int_of_float_below (B : Z) (f : float) s :
  nonneg_below B f → ∃ n, int_of_float f s = (s, Returned n) ∧ 0 ≤ n.
Proof.
  intros [->|(m & e & -> & _)]; [by exists 0|].
  exists (Z.shiftl (Z.pos m) e). split; [done|]. by apply Z.shiftl_nonneg.
Qed.

Lemma float_of_int_run N s :
  0 ≤ N < 2 ^ 63 →
  float_of_int N s = (s, Returned (binary_normalize prec emax N 0 false))
  ∧ nonneg_below 64 (binary_normalize prec emax N 0 false).
Proof.
  intros HN. pose proof (binary_normalize_below N HN) as Hf. split; [|done].
  unfold float_of_int. by destruct Hf as [->|(m & e & -> & _)].
Qed.

(** [int(N * p)] returns, with a result that is not negative. *)
Lemma n_train_of_returns N p s :
  0 ≤ N < 2 ^ 63 → in_open_unit p = true →
  ∃ n, n_train_of N p s = (s, Returned n) ∧ 0 ≤ n.
Proof.
  intros HN Hp. destruct (float_of_int_run N s HN) as [Hrun Hf].
  pose proof (SFmul_below _ p Hf Hp) as Hprod.
  destruct (int_of_float_below 65 _ s Hprod) as (n & Hn & Hn0).
  exists n. split; [|done]. unfold n_train_of, int_mul_float.
  erewrite bind_returned; [done|]. by erewrite bind_returned.
Qed.

(** For a size a float holds exactly, the result is at most the size. *)
Lemma n_train_of_le N p s n :
  0 ≤ N < 2 ^ 53 → in_open_unit p = true →
  n_train_of N p s = (s, Returned n) → n ≤ N.
Proof.
  intros HN Hp. destruct (float_of_int_run N s) as [Hrun _]; [lia|].
  unfold n_train_of, int_mul_float.
  erewrite bind_returned; [|by erewrite bind_returned].
  apply in_open_unit_finite in Hp as (mp & ep & -> & Hdp & Hep).
  destruct (Z.eq_dec N 0) as [->|HN0]; [cbn; intros [= <-]; lia|].
  destruct (binary_normalize_exact N) as (mN & eN & -> & HeN & HmN); [lia|].
  cbn [SFmul xorb].
  pose proof (binary_round_aux_trunc_le (mN * mp) (eN + ep) N) as Hle.
  destruct (binary_round_aux prec emax false (Z.pos (mN * mp)) (eN + ep) loc_Exact)
    as [sz|si| |sf m e]; cbn [int_of_float]; try done.
  - intros [= <-]. lia.
  - intros [= <-].
    assert (Hsf : sf = false ∨ Z.shiftl (Z.pos m) e = 0 ∨ 0 ≤ Z.shiftl (Z.pos m) e)
      by (right; right; by apply Z.shiftl_nonneg).
    assert (Z.shiftl (Z.pos m) e ≤ N).
    { apply Hle; [lia|lia|].
      rewrite Pos2Z.inj_mul, HmN.
      replace (- (eN + ep)) with (- eN + - ep) by lia.
      rewrite pow_split by lia.
      assert (Z.pos mp < 2 ^ (- ep)).
      { destruct (Zdigits2_bounds (Z.pos mp)) as [_ Hhi]; [lia|].
        assert (2 ^ Zdigits2 (Z.pos mp) ≤ 2 ^ (- ep))
          by (apply Z.pow_le_mono_r; lia). lia. }
      assert (0 < 2 ^ (- eN)) by (apply Z.pow_pos_nonneg; lia). nia. }
    pose proof (Z.shiftl_nonneg (Z.pos m) e). destruct sf; cbn [cond_Zopp]; lia.
Qed.

(** The result lies between the floor of the exact product and one
    more. *)
Lemma n_train_of_near_floor N p s :
  0 ≤ N < 2 ^ 53 →
  in_open_unit p = true →
  ∃ n_train, n_train_of N p s = (s, Returned n_train)
    ∧ floor_of_product N p ≤ n_train ≤ floor_of_product N p + 1.
Proof.
  intros HN Hp. destruct (float_of_int_run N s) as [Hrun _]; [lia|].
  unfold n_train_of, int_mul_float.
  erewrite bind_returned; [|by erewrite bind_returned].
  apply in_open_unit_finite in Hp as (mp & ep & -> & Hdp & Hep).
  cbn [floor_of_product cond_Zopp].
  destruct (Z.eq_dec N 0) as [->|HN0].
  { exists 0. split; [done|]. rewrite Z.mul_0_l, Z.shiftl_0_l. lia. }
  destruct (binary_normalize_exact N) as (mN & eN & -> & HeN & HmN); [lia|].
  cbn [SFmul xorb].
  assert (Hmp : Z.pos mp < 2 ^ (- ep)).
  { destruct (Zdigits2_bounds (Z.pos mp)) as [_ Hhi]; [lia|].
    assert (2 ^ Zdigits2 (Z.pos mp) ≤ 2 ^ (- ep))
      by (apply Z.pow_le_mono_r; lia). lia. }
  assert (HpowN : 0 < 2 ^ (- eN)) by (apply Z.pow_pos_nonneg; lia).
  assert (Hpowp : 0 < 2 ^ (- ep)) by (apply Z.pow_pos_nonneg; lia).
  destruct (binary_round_aux_trunc_near (mN * mp) (eN + ep) N s)
    as (t & Ht & Hbounds); [lia|lia| |].
  { rewrite Pos2Z.inj_mul, HmN.
    replace (- (eN + ep)) with (- eN + - ep) by lia.
    rewrite pow_split by lia. nia. }
  exists t. split; [done|].
  rewrite Z.shiftl_div_pow2 by lia.
  replace (Z.pos (mN * mp) / 2 ^ (- (eN + ep))) with (N * Z.pos mp / 2 ^ (- ep))
    in Hbounds; [done|].
  rewrite Pos2Z.inj_mul, HmN.
  replace (- (eN + ep)) with (- eN + - ep) by lia.
  rewrite pow_split by lia.
  replace (N * 2 ^ (- eN) * Z.pos mp) with (N * Z.pos mp * 2 ^ (- eN)) by lia.
  replace (2 ^ (- eN) * 2 ^ (- ep)) with (2 ^ (- ep) * 2 ^ (- eN)) by lia.
  by rewrite Z.div_mul_cancel_r by lia.
Qed.

End Sizes.

(** ** The partition *)

Section Partition.

Context {A : Type}.
Implicit Types (l : list A) (k : Z).

Lemma slice_index_zero (len : nat) : slice_index len 0 = 0%nat.
Proof. unfold slice_index. cbn. lia. Qed.

Lemma slice_index_length (len : nat) : slice_index len (Z.of_nat len) = len.
Proof.
  unfold slice_index. destruct (Z.ltb_spec (Z.of_nat len) 0); lia.
Qed.

(** [l[0:k]] followed by [l[k:len(l)]] is [l], whatever the integer [k]. *)
Lemma slice_split l k :
  slice l 0 k ++ slice l k (Z.of_nat (length l)) = l.
Proof.
  unfold slice. rewrite slice_index_zero, slice_index_length.
  rewrite firstn_all, drop_0. apply take_drop.
Qed.

Lemma length_slice_prefix l k :
  0 ≤ k ≤ Z.of_nat (length l) → length (slice l 0 k) = Z.to_nat k.
Proof.
  intros Hk. unfold slice. rewrite slice_index_zero, drop_0, length_take. unfold slice_index.
  destruct (Z.ltb_spec k 0); lia.
Qed.

End Partition.

Lemma random_split_run (N : nat) (n : Z) (indices : list nat) (s : gmap nat bool) :
  random_split (ODataset N) (n, Z.of_nat N - n) indices s
  = (s, Returned (slice indices 0 n, slice indices n (Z.of_nat N))).
Proof.
  unfold random_split. erewrite bind_returned; [|reflexivity].
  case_bool_decide as Hsum; [lia|].
  replace (n - n) with 0 by lia.
  replace (n + (Z.of_nat N - n) - (Z.of_nat N - n)) with n by lia.
  by replace (n + (Z.of_nat N - n)) with (Z.of_nat N) by lia.
Qed.

(** ** The dataset split of [get_trainer] *)

(** C7, the formula of the specification refuted: [int(N * p)] is the
    integer part of the rounded binary64 product, not the floor of the exact
    product.  For [N = 10] and the float [0.7], whose exact value is just
    below seven tenths, the code computes 7 while the floor of the exact
    product is 6; for [N = 100] and the float [0.29] the code computes 28
    while the floor of one hundred times twenty-nine hundredths is 29. *)
Lemma C7_int_of_product_is_not_floor :
  in_open_unit (float_literal 7 1) = true
  ∧ n_train_of 10 (float_literal 7 1) ∅ = (∅, Returned 7)
  ∧ floor_of_product 10 (float_literal 7 1) = 6
  ∧ n_train_of 10 (float_literal 7 1) ∅
    ≠ (∅, Returned (floor_of_product 10 (float_literal 7 1)))
  ∧ in_open_unit (float_literal 29 2) = true
  ∧ n_train_of 100 (float_literal 29 2) ∅ = (∅, Returned 28)
  ∧ (100 * 29) / 100 = 29.
Proof. repeat split; try (vm_compute; reflexivity). vm_compute. discriminate. Qed.

(** C7, as the code has it: for a dataset of [N] items ([N] below [2 ^ 63],
    the range of [len]), a train fraction that is a binary64 float strictly
    between 0 and 1, overrides the configuration accepts ([None] or a
    mapping without a read-only key), and a permutation [indices] of
    [0 .. N-1] drawn by [random_split], [get_trainer] returns; [n_train] is
    the integer part of the rounded product [N * p] and [n_val] is
    [N - n_train], so they sum to [N]; the train set is [indices[0:n_train]]
    and the eval set [indices[n_train:N]], which are disjoint and together
    hold every index below [N]; and for [N] below [2 ^ 53], [n_train] lies
    between 0 and [N], is the floor of the exact product or one more, and
    the two sets have [n_train] and [n_val] elements. *)
Theorem C7_split_partitions_dataset
    (lib : Library) (self : Self) (now : datetime) (indices : list nat)
    (N : nat) (s : gmap nat bool) :
  AbstractTransformerAutoencoder.dataset self = ODataset N →
  Z.of_nat N < 2 ^ 63 →
  in_open_unit (train_pct self) = true →
  settable lib (training_args self) →
  indices ≡ₚ seq 0 N →
  ∃ n_train t,
    n_train_of (Z.of_nat N) (train_pct self) s = (s, Returned n_train)
    ∧ get_trainer lib self now indices s = (s, Returned t)
    ∧ 0 ≤ n_train
    ∧ n_train + (Z.of_nat N - n_train) = Z.of_nat N
    ∧ train_dataset t = slice indices 0 n_train
    ∧ eval_dataset t = slice indices n_train (Z.of_nat N)
    ∧ train_dataset t ++ eval_dataset t = indices
    ∧ (∀ i, i ∈ train_dataset t → i ∉ eval_dataset t)
    ∧ (∀ i, (i < N)%nat ↔ i ∈ train_dataset t ∨ i ∈ eval_dataset t)
    ∧ (Z.of_nat N < 2 ^ 53 →
         n_train ≤ Z.of_nat N
         ∧ floor_of_product (Z.of_nat N) (train_pct self) ≤ n_train
           ≤ floor_of_product (Z.of_nat N) (train_pct self) + 1
         ∧ length (train_dataset t) = Z.to_nat n_train
         ∧ length (eval_dataset t) = Z.to_nat (Z.of_nat N - n_train)).
Proof.
  intros Hds HN Hp Hargs Hperm.
  destruct (n_train_of_returns (Z.of_nat N) (train_pct self) s) as (n & Hn & Hn0);
    [lia|done|].
  destruct (merge_settable lib self now s Hargs) as [cfg Hmerge].
  assert (Hlen : length indices = N)
    by (by rewrite (Permutation_length Hperm), length_seq).
  assert (Happ : slice indices 0 n ++ slice indices n (Z.of_nat N) = indices)
    by (rewrite <- Hlen at 1; apply slice_split).
  assert (Hnd : NoDup (slice indices 0 n ++ slice indices n (Z.of_nat N)))
    by (rewrite Happ, Hperm; apply NoDup_seq).
  exists n, {| trainer_model := model self; args := cfg;
               train_dataset := slice indices 0 n;
               eval_dataset := slice indices n (Z.of_nat N) |}.
  cbn [train_dataset eval_dataset].
  split; [done|]. split.
  { unfold get_trainer. erewrite bind_returned; [|done]. rewrite Hds.
    erewrite bind_returned; [|reflexivity].
    erewrite bind_returned; [|done].
    erewrite bind_returned; [|apply random_split_run]. done. }
  split; [done|]. split; [lia|]. split; [done|]. split; [done|].
  split; [done|]. split; [|split].
  - intros i Hi. apply NoDup_app in Hnd as (_ & Hdisj & _). by apply Hdisj.
  - intros i. rewrite <- elem_of_app, Happ, Hperm, elem_of_seq. lia.
  - intros HN53.
    assert (Hle : n ≤ Z.of_nat N) by (eapply n_train_of_le; [lia|done|done]).
    assert (Hl1 : length (slice indices 0 n) = Z.to_nat n)
      by (apply length_slice_prefix; lia).
    split; [done|]. split.
    { destruct (n_train_of_near_floor (Z.of_nat N) (train_pct self) s)
        as (n' & Hn' & Hnear); [lia|done|].
      rewrite Hn in Hn'. by injection Hn' as <-. }
    split; [done|].
    apply (f_equal length) in Happ. rewrite length_app in Happ. lia.
Qed.

Lemma C7_split_partitions_dataset_witness :
  ∃ n_train t,
    n_train_of 10 (float_literal 8 1) (all_flags true 6)
      = (all_flags true 6, Returned n_train)
    ∧ get_trainer (t5_library 2 3)
        (example_self (OScalar PNone) 10 (float_literal 8 1))
        {| day := 3; month := 11; year := 2026 |} (reverse (seq 0 10))
        (all_flags true 6)
      = (all_flags true 6, Returned t)
    ∧ train_dataset t ++ eval_dataset t = reverse (seq 0 10)
    ∧ (∀ i, i ∈ train_dataset t → i ∉ eval_dataset t)
    ∧ n_train ≤ 10.
Proof.
  destruct (C7_split_partitions_dataset (t5_library 2 3)
    (example_self (OScalar PNone) 10 (float_literal 8 1))
    {| day := 3; month := 11; year := 2026 |} (reverse (seq 0 10)) 10%nat
    (all_flags true 6))
    as (n & t & Hn & Ht & _ & _ & _ & _ & Happ & Hdisj & _ & Hsmall).
  - reflexivity.
  - reflexivity.
  - vm_compute. reflexivity.
  - left. reflexivity.
  - apply reverse_Permutation.
  - exists n, t. split; [exact Hn|]. split; [exact Ht|]. split; [exact Happ|].
    split; [exact Hdisj|]. apply Hsmall. reflexivity.
Defined.


(** * Further properties of the code *)

(** ** Which flags a computation can touch *)

Section Frames.

Context {A B : Type}.
Implicit Types (p : nat) (s : gmap nat bool).

Lemma preserves_bind p (c : Exec A) (f : A → Exec B) :
  preserves p c → (∀ a, preserves p (f a)) → preserves p (c ≫= f).
Proof.
  intros Hc Hf s. unfold mbind, Exec_bind. specialize (Hc s).
  destruct (c s) as [s1 [a|e]]; cbn [fst] in *; [|done].
  by rewrite Hf.
Qed.

Lemma only_clears_bind p (c : Exec A) (f : A → Exec B) :
  only_clears p c → (∀ a, only_clears p (f a)) → only_clears p (c ≫= f).
Proof.
  intros Hc Hf s. unfold mbind, Exec_bind. specialize (Hc s).
  destruct (c s) as [s1 [a|e]]; cbn [fst] in *; [|done].
  destruct (Hf a s1) as [H1|H1]; rewrite H1; [done|by right].
Qed.

Lemma preserves_ret_bind p (a : A) (f : A → Exec B) :
  preserves p (f a) → preserves p (mret a ≫= f).
Proof. intros Hf s. apply Hf. Qed.

Lemma only_clears_ret_bind p (a : A) (f : A → Exec B) :
  only_clears p (f a) → only_clears p (mret a ≫= f).
Proof. intros Hf s. apply Hf. Qed.

Lemma preserves_only_clears p (c : Exec A) : preserves p c → only_clears p c.
Proof. intros Hc s. by left. Qed.

End Frames.

Lemma preserves_assert (p : nat) (cond : bool) : preserves p (assert cond).
Proof. intros s. by destruct cond. Qed.

Lemma preserves_set_layers (p : nat) (b : bool) (layers : list (list nat)) :
  p ∉ concat layers →
  preserves p (for_each layers (λ layer,
                 for_each layer (λ q, set_requires_grad q b))).
Proof.
  intros Hp s. rewrite for_each_layers. cbn [fst].
  by apply lookup_set_all_not_elem.
Qed.

Lemma only_clears_freeze_layers (p : nat) (layers : list (list nat)) :
  only_clears p (for_each layers (λ layer,
                   for_each layer (λ q, set_requires_grad q false))).
Proof.
  intros s. rewrite for_each_layers. cbn [fst].
  destruct (decide (p ∈ concat layers)).
  - right. by apply lookup_set_all_elem.
  - left. by apply lookup_set_all_not_elem.
Qed.

Lemma elem_of_concat_drop {A : Type} (k : nat) (l : list (list A)) (x : A) :
  x ∈ concat (drop k l) → x ∈ concat l.
Proof.
  rewrite <- (take_drop k l) at 2. rewrite concat_app, elem_of_app. by right.
Qed.

(** [toggle_layer_grad] writes only to parameters of its [module] argument
    and of [base_model.encoder.layer]. *)
Lemma preserves_toggle (m : Model) (spec : Spec) (module : list (list nat))
    (n : Z) (p : nat) :
  p ∉ concat module →
  p ∉ concat (default [] (base_model_encoder_layer m)) →
  preserves p (toggle_layer_grad m spec module n).
Proof.
  intros Hmod Hbase. unfold toggle_layer_grad.
  destruct (_ >? 0); [|done].
  apply preserves_bind.
  { apply preserves_set_layers. intros Hin. apply Hmod.
    by eapply elem_of_concat_take. }
  intros _. unfold get_base_model_encoder_layer.
  destruct (base_model_encoder_layer m) as [layers|]; [|done].
  apply preserves_ret_bind.
  apply preserves_bind; [by destruct spec|]. intros start.
  apply preserves_set_layers. intros Hin. apply Hbase.
  by eapply elem_of_concat_drop.
Qed.

Lemma only_clears_toggle_tuple (m : Model) (e d : Z) (module : list (list nat))
    (n : Z) (p : nat) :
  only_clears p (toggle_layer_grad m (SpecTuple e d) module n).
Proof.
  intros s. rewrite toggle_tuple. destruct (0 <? effective module n); [|by left].
  cbn [fst]. destruct (decide (p ∈ concat (slice_to module (- effective module n)))).
  - right. by apply lookup_set_all_elem.
  - left. by apply lookup_set_all_not_elem.
Qed.

(** When the attribute path is missing, an effective call freezes the
    leading layers and raises [AttributeError], whatever the spec. *)
Lemma toggle_without_layer (m : Model) (spec : Spec) (module : list (list nat))
    (n : Z) (s : gmap nat bool) :
  base_model_encoder_layer m = None → 0 < effective module n →
  toggle_layer_grad m spec module n s
  = (set_all false (concat (slice_to module (- effective module n))) s,
     Raised AttributeError).
Proof.
  intros Hnone Hpos. rewrite toggle_effective by done.
  apply bind_raised. unfold get_base_model_encoder_layer. by rewrite Hnone.
Qed.

(** With the attribute path present and an integer spec, an effective call
    returns: it has frozen the leading layers of [module] and then set the
    flags of a slice of [base_model.encoder.layer]. *)
Lemma toggle_with_layer (m : Model) (k : Z) (module layers : list (list nat))
    (n : Z) (s : gmap nat bool) :
  base_model_encoder_layer m = Some layers → 0 < effective module n →
  toggle_layer_grad m (SpecInt k) module n s
  = (set_all true (concat (slice_from layers (- k)))
       (set_all false (concat (slice_to module (- effective module n))) s),
     Returned ()).
Proof.
  intros Hsome Hpos. rewrite toggle_effective by done.
  unfold get_base_model_encoder_layer. rewrite Hsome.
  erewrite bind_returned; [|reflexivity].
  erewrite bind_returned; [|reflexivity].
  apply for_each_layers.
Qed.

Lemma slice_from_neg {A : Type} (l : list A) (k : Z) :
  0 < k → slice_from l (- k) = drop (length l - Z.to_nat k) l.
Proof.
  intros Hk. unfold slice_from, slice_index.
  destruct (Z.ltb_spec (- k) 0); [|lia]. f_equal. lia.
Qed.

Lemma slice_to_neg {A : Type} (l : list A) (k : Z) :
  0 < k → slice_to l (- k) = take (length l - Z.to_nat k) l.
Proof.
  intros Hk. unfold slice_to, slice_index.
  destruct (Z.ltb_spec (- k) 0); [|lia]. f_equal. lia.
Qed.

(** ** The selector: what it writes and when it returns *)

(** X1: the selector writes only to parameters of the model: whatever the
    spec, and whether it returns or raises, a parameter outside
    [model.parameters()] has the flag it started with. *)
Theorem X1_selector_keeps_foreign_parameters
    (m : Model) (spec : Spec) (s : gmap nat bool) (p : nat) :
  p ∉ parameters m → (init_layers m spec s).1 !! p = s !! p.
Proof.
  intros Hp. unfold parameters in Hp. rewrite !elem_of_app in Hp.
  assert (Henc : p ∉ concat (encoder_block m)) by tauto.
  assert (Hdec : p ∉ concat (decoder_block m)) by tauto.
  assert (Hbase : p ∉ concat (default [] (base_model_encoder_layer m))) by tauto.
  assert (Hfreeze : preserves p (freeze_all m)).
  { intros s0. rewrite freeze_all_run. cbn [fst].
    apply lookup_set_all_not_elem. unfold parameters. rewrite !elem_of_app. tauto. }
  revert s. change (preserves p (init_layers m spec)).
  destruct spec as [e d|n|]; cbn [init_layers]; [| |done].
  - repeat (apply preserves_bind; [apply preserves_assert|intros _]).
    apply preserves_bind; [by apply preserves_toggle|intros _].
    by apply preserves_toggle.
  - destruct (n >? 0); [|done].
    apply preserves_bind; [apply preserves_assert|intros _].
    apply preserves_bind; [by apply preserves_toggle|intros _].
    by apply preserves_toggle.
Qed.

Lemma X1_selector_keeps_foreign_parameters_witness :
  (init_layers (bert_like 2 3) (SpecInt 4) (all_flags false 9)).1 !! 7%nat
  = Some false.
Proof.
  rewrite (X1_selector_keeps_foreign_parameters (bert_like 2 3) (SpecInt 4)
             (all_flags false 9) 7%nat); [reflexivity|].
  vm_compute. intros H.
  repeat (apply elem_of_cons in H as [H|H]; [discriminate|]).
  by apply elem_of_nil in H.
Defined.

(** X2: on a pair the selector never sets a flag.  Whether it returns or
    raises, every parameter has the flag it started with or a cleared one,
    so no parameter that was frozen becomes trainable. *)
Theorem X2_pair_never_sets_a_flag
    (m : Model) (e d : Z) (s : gmap nat bool) (p : nat) :
  ((init_layers m (SpecTuple e d) s).1 !! p = s !! p
   ∨ (init_layers m (SpecTuple e d) s).1 !! p = Some false)
  ∧ (trainable (init_layers m (SpecTuple e d) s).1 p = true ↔
     trainable s p = true
     ∧ (init_layers m (SpecTuple e d) s).1 !! p = s !! p).
Proof.
  assert (H : only_clears p (init_layers m (SpecTuple e d))).
  { cbn [init_layers].
    repeat (apply only_clears_bind;
            [apply preserves_only_clears, preserves_assert|intros _]).
    apply only_clears_bind; [apply only_clears_toggle_tuple|intros _].
    apply only_clears_toggle_tuple. }
  split; [apply H|]. unfold trainable. rewrite !bool_decide_eq_true.
  destruct (H s) as [Heq|Hclr].
  - rewrite Heq. tauto.
  - rewrite Hclr. split; [discriminate|]. intros [Ht Hf]. congruence.
Qed.

(** X3: on a pair the selector returns exactly when neither count has an
    effect: both counts are at most zero, and a count of [-1] comes with an
    empty stack; it has then written nothing.  Every pair that asks for a
    layer of a stack that has one makes the constructor raise. *)
Theorem X3_pair_returns_iff_no_effect
    (m : Model) (e d : Z) (s : gmap nat bool) :
  ((∃ s', init_layers m (SpecTuple e d) s = (s', Returned ())) ↔
   e ≤ 0 ∧ d ≤ 0
   ∧ (e = -1 → encoder_block m = []) ∧ (d = -1 → decoder_block m = []))
  ∧ (∀ s', init_layers m (SpecTuple e d) s = (s', Returned ()) → s' = s).
Proof.
  assert (Heff : ∀ (module : list (list nat)) n,
            effective module n ≤ 0 ↔ n ≤ 0 ∧ (n = -1 → module = [])).
  { intros module n. unfold effective.
    destruct (Z.eqb_spec n (-1)) as [->|Hne].
    - destruct module; cbn [length]; split; intros H; try lia; try done.
      destruct H as [_ H]. by specialize (H eq_refl).
    - split; [|lia]. intros H. split; [lia|done]. }
  split; [split|].
  - intros [s' Hret]. apply pair_returns_unchanged in Hret as (_ & He & Hd).
    apply Heff in He, Hd. tauto.
  - intros (He & Hd & He1 & Hd1). exists s.
    assert (He' : effective (encoder_block m) e ≤ 0) by (apply Heff; tauto).
    assert (Hd' : effective (decoder_block m) d ≤ 0) by (apply Heff; tauto).
    unfold init_layers, assert.
    destruct (Z.leb_spec e (Z.of_nat (length (encoder_block m)))); [|lia].
    erewrite bind_returned; [|reflexivity].
    destruct (Z.leb_spec d (Z.of_nat (length (decoder_block m)))); [|lia].
    erewrite bind_returned; [|reflexivity].
    unfold mbind, Exec_bind. rewrite toggle_tuple.
    destruct (Z.ltb_spec 0 (effective (encoder_block m) e)); [lia|].
    rewrite toggle_tuple.
    by destruct (Z.ltb_spec 0 (effective (decoder_block m) d)); [lia|].
  - intros s' Hret. by apply pair_returns_unchanged in Hret as (-> & _).
Qed.

Lemma effective_nonneg (module : list (list nat)) (n : Z) :
  0 ≤ n → effective module n = n.
Proof. intros Hn. unfold effective. by destruct (Z.eqb_spec n (-1)); [lia|]. Qed.

Lemma int_spec_without_layer (m : Model) (n : Z) (s : gmap nat bool) :
  base_model_encoder_layer m = None →
  0 < n →
  n ≤ Z.of_nat (length (encoder_block m)) + Z.of_nat (length (decoder_block m)) →
  ∃ s', init_layers m (SpecInt n) s = (s', Raised AttributeError)
    ∧ ∀ p, s' !! p = s !! p ∨ s' !! p = Some false.
Proof.
  intros Hnone Hn Hle. unfold init_layers, assert.
  destruct (Z.gtb_spec n 0); [|lia].
  destruct (Z.geb_spec (Z.of_nat (length (encoder_block m))
                        + Z.of_nat (length (decoder_block m))) n); [|lia].
  erewrite bind_returned; [|reflexivity].
  set (D := Z.of_nat (length (decoder_block m))) in *.
  assert (Hclr : ∀ ps p, set_all false ps s !! p = s !! p
                         ∨ set_all false ps s !! p = Some false).
  { intros ps p. destruct (decide (p ∈ ps)).
    - right. by apply lookup_set_all_elem.
    - left. by apply lookup_set_all_not_elem. }
  destruct (Z.le_gt_cases n D) as [HnD|HnD].
  - assert (Henc : n_enc_to_train n D = 0) by (unfold n_enc_to_train; lia).
    assert (Hdec : n_dec_to_train n D = n)
      by (unfold n_dec_to_train; destruct (Z.ltb_spec n D); lia).
    rewrite Henc, Hdec.
    erewrite bind_returned; [|apply toggle_noop; lia].
    rewrite toggle_without_layer by (first [done|rewrite effective_nonneg; lia]).
    eexists. split; [done|]. intros p. apply Hclr.
  - assert (Henc : 0 < n_enc_to_train n D) by (unfold n_enc_to_train; lia).
    erewrite bind_raised;
      [|apply toggle_without_layer; [done|rewrite effective_nonneg; lia]].
    eexists. split; [done|]. intros p. apply Hclr.
Qed.

(** X4: on a model without [base_model.encoder.layer], as a T5 model is,
    every integer spec from 1 to [E + D] makes the selector raise
    [AttributeError]; the store it leaves has flags cleared but none set. *)
Theorem X4_int_without_layer_raises
    (m : Model) (n : Z) (s : gmap nat bool) :
  base_model_encoder_layer m = None →
  0 < n →
  n ≤ Z.of_nat (length (encoder_block m)) + Z.of_nat (length (decoder_block m)) →
  ∃ s', init_layers m (SpecInt n) s = (s', Raised AttributeError)
    ∧ ∀ p, s' !! p = s !! p ∨ s' !! p = Some false.
Proof. apply int_spec_without_layer. Qed.

Lemma X4_int_without_layer_raises_witness :
  ∃ s', init_layers (t5_like 2 3) (SpecInt 3) (all_flags true 6)
        = (s', Raised AttributeError)
    ∧ ∀ p, s' !! p = all_flags true 6 !! p ∨ s' !! p = Some false.
Proof.
  apply (X4_int_without_layer_raises (t5_like 2 3) 3 (all_flags true 6));
    [reflexivity|lia|cbn; lia].
Defined.

(** X5: with [base_model.encoder.layer] present and an integer spec [k],
    an effective call of [toggle_layer_grad] returns, and the layers it
    unfreezes are the last [k] layers of [base_model.encoder.layer],
    whatever [module] and [n_to_train] are; of [module] it freezes the
    layers before the last [n_to_train], unless the second loop sets them
    again; parameters of neither collection keep their flag. *)
Theorem X5_toggle_sets_last_layers_of_base
    (m : Model) (k : Z) (module layers : list (list nat)) (n : Z)
    (s : gmap nat bool) :
  base_model_encoder_layer m = Some layers →
  0 < k →
  0 < effective module n →
  ∃ s', toggle_layer_grad m (SpecInt k) module n s = (s', Returned ())
    ∧ (∀ layer p, layer ∈ drop (length layers - Z.to_nat k) layers →
         p ∈ layer → s' !! p = Some true)
    ∧ (∀ layer p,
         layer ∈ take (length module - Z.to_nat (effective module n)) module →
         p ∈ layer →
         p ∉ concat (drop (length layers - Z.to_nat k) layers) →
         s' !! p = Some false)
    ∧ (∀ p, p ∉ concat module → p ∉ concat layers → s' !! p = s !! p).
Proof.
  intros Hsome Hk Heff. eexists. split; [by apply toggle_with_layer|].
  rewrite slice_from_neg, slice_to_neg by done. split; [|split].
  - intros layer p Hlayer Hp. apply lookup_set_all_elem.
    apply elem_of_concat. eauto.
  - intros layer p Hlayer Hp Hnot.
    rewrite lookup_set_all_not_elem by done.
    apply lookup_set_all_elem, elem_of_concat. eauto.
  - intros p Hmod Hlay.
    rewrite lookup_set_all_not_elem
      by (intros Hin; apply Hlay; by eapply elem_of_concat_drop).
    apply lookup_set_all_not_elem.
    intros Hin. apply Hmod. by eapply elem_of_concat_take.
Qed.

Lemma X5_toggle_sets_last_layers_of_base_witness :
  ∃ s', toggle_layer_grad (bert_like 4 3) (SpecInt 2)
          (decoder_block (bert_like 4 3)) 1 (all_flags false 8)
        = (s', Returned ())
    ∧ (∀ layer p, layer ∈ drop (4 - 2) (encoder_block (bert_like 4 3)) →
         p ∈ layer → s' !! p = Some true).
Proof.
  destruct (X5_toggle_sets_last_layers_of_base (bert_like 4 3) 2
              (decoder_block (bert_like 4 3)) (encoder_block (bert_like 4 3)) 1
              (all_flags false 8)) as (s' & Hrun & Hset & _);
    [reflexivity|lia|reflexivity|].
  exists s'. split; [exact Hrun|exact Hset].
Defined.

(** X6: whenever the selector returns on a positive integer spec [n], the
    count was within [E + D], the model has [base_model.encoder.layer], and
    the last [n] layers of that collection are trainable afterwards.  The
    layers the constructor unfreezes are thus layers of
    [base_model.encoder.layer], never chosen by the decoder-first counts. *)
Theorem X6_int_returns_with_last_n_of_base_set
    (m : Model) (n : Z) (s s' : gmap nat bool) :
  0 < n →
  init_layers m (SpecInt n) s = (s', Returned ()) →
  n ≤ Z.of_nat (length (encoder_block m)) + Z.of_nat (length (decoder_block m))
  ∧ ∃ layers, base_model_encoder_layer m = Some layers
      ∧ ∀ layer p, layer ∈ drop (length layers - Z.to_nat n) layers →
          p ∈ layer → s' !! p = Some true.
Proof.
  intros Hn Hret.
  destruct (Z.le_gt_cases n (Z.of_nat (length (encoder_block m))
                             + Z.of_nat (length (decoder_block m)))) as [Hle|Hgt].
  2:{ revert Hret. unfold init_layers, assert.
      destruct (Z.gtb_spec n 0); [|lia].
      destruct (Z.geb_spec (Z.of_nat (length (encoder_block m))
                            + Z.of_nat (length (decoder_block m))) n); [lia|].
      by erewrite bind_raised. }
  split; [done|].
  destruct (base_model_encoder_layer m) as [layers|] eqn:Hbase.
  2:{ destruct (int_spec_without_layer m n s Hbase Hn Hle) as (s1 & Hraise & _).
      congruence. }
  exists layers. split; [done|]. intros layer p Hlayer Hp.
  assert (HpB : p ∈ concat (slice_from layers (- n)))
    by (rewrite slice_from_neg by done; apply elem_of_concat; eauto).
  revert Hret. unfold init_layers, assert.
  destruct (Z.gtb_spec n 0); [|lia].
  destruct (Z.geb_spec (Z.of_nat (length (encoder_block m))
                        + Z.of_nat (length (decoder_block m))) n); [|lia].
  erewrite bind_returned; [|reflexivity].
  set (D := Z.of_nat (length (decoder_block m))) in *.
  assert (Hdec0 : 0 ≤ n_dec_to_train n D)
    by (unfold n_dec_to_train; destruct (Z.ltb_spec n D); lia).
  assert (Henc0 : 0 ≤ n_enc_to_train n D) by (unfold n_enc_to_train; lia).
  assert (Hsum : 0 < n_enc_to_train n D ∨ 0 < n_dec_to_train n D).
  { unfold n_enc_to_train, n_dec_to_train. destruct (Z.ltb_spec n D); lia. }
  destruct (Z.eq_dec (n_dec_to_train n D) 0) as [Hd0|Hd0].
  - rewrite Hd0.
    erewrite bind_returned;
      [|apply toggle_with_layer; [done|rewrite effective_nonneg; lia]].
    rewrite toggle_noop by lia. intros [= <-].
    by apply lookup_set_all_elem.
  - destruct (Z.eq_dec (n_enc_to_train n D) 0) as [He0|He0].
    + rewrite He0. erewrite bind_returned; [|apply toggle_noop; lia].
      rewrite (toggle_with_layer m n _ layers) by (first [done|rewrite effective_nonneg; lia]).
      intros [= <-]. by apply lookup_set_all_elem.
    + erewrite bind_returned;
        [|apply toggle_with_layer; [done|rewrite effective_nonneg; lia]].
      rewrite (toggle_with_layer m n _ layers) by (first [done|rewrite effective_nonneg; lia]).
      intros [= <-]. by apply lookup_set_all_elem.
Qed.

Lemma X6_int_returns_with_last_n_of_base_set_witness :
  4 ≤ Z.of_nat (length (encoder_block (bert_like 2 3)))
      + Z.of_nat (length (decoder_block (bert_like 2 3)))
  ∧ ∃ layers, base_model_encoder_layer (bert_like 2 3) = Some layers
      ∧ ∀ layer p, layer ∈ drop (length layers - Z.to_nat 4) layers →
          p ∈ layer →
          (init_layers (bert_like 2 3) (SpecInt 4) (all_flags true 6)).1 !! p
          = Some true.
Proof.
  apply (X6_int_returns_with_last_n_of_base_set (bert_like 2 3) 4
           (all_flags true 6)); [lia|].
  vm_compute. reflexivity.
Defined.

(** ** [get_trainer]: the overrides *)

(** X7: [get_trainer] tests the truth value of [self.training_args] before
    reading it: a value that is false ([None], an empty mapping, [0], an
    empty string) leaves the defaults as they are, and a value that is true
    and is not a mapping (a number, a non-empty string) makes [get_trainer]
    raise [AttributeError] at [.items()], before the dataset is split. *)
Theorem X7_training_args_truth_value
    (lib : Library) (self : Self) (now : datetime) (indices : list nat)
    (s : gmap nat bool) :
  (truthy (training_args self) = false →
   merge_training_args lib self now s
   = (s, Returned (default_training_args lib (model_name self) now)))
  ∧ (truthy (training_args self) = true →
     (∀ d, training_args self ≠ OMapping d) →
     get_trainer lib self now indices s = (s, Raised AttributeError)).
Proof.
  split.
  - intros Hfalse. unfold merge_training_args. by rewrite Hfalse.
  - intros Htrue Hnot. unfold get_trainer. apply bind_raised.
    unfold merge_training_args. rewrite Htrue. apply bind_raised.
    destruct (training_args self) as [v|d|n]; [done| |done]. by destruct (Hnot d).
Qed.

Lemma X7_training_args_truth_value_witness :
  merge_training_args (t5_library 2 3)
    (example_self (OMapping ∅) 10 (float_literal 8 1))
    {| day := 3; month := 11; year := 2026 |} (all_flags true 6)
  = (all_flags true 6,
     Returned (default_training_args (t5_library 2 3) "google/t5-small"
                 {| day := 3; month := 11; year := 2026 |}))
  ∧ get_trainer (t5_library 2 3)
      (example_self (OScalar (PStr "fast")) 10 (float_literal 8 1))
      {| day := 3; month := 11; year := 2026 |} (seq 0 10) (all_flags true 6)
    = (all_flags true 6, Raised AttributeError).
Proof.
  split.
  - apply (proj1 (X7_training_args_truth_value (t5_library 2 3)
      (example_self (OMapping ∅) 10 (float_literal 8 1))
      {| day := 3; month := 11; year := 2026 |} (seq 0 10) (all_flags true 6))).
    reflexivity.
  - apply (proj2 (X7_training_args_truth_value (t5_library 2 3)
      (example_self (OScalar (PStr "fast")) 10 (float_literal 8 1))
      {| day := 3; month := 11; year := 2026 |} (seq 0 10) (all_flags true 6)));
      [reflexivity|discriminate].
Defined.

(** ** [get_trainer]: the split at the edges *)

Section SplitEdges.

Implicit Types (N : Z) (p : float) (s : gmap nat bool).

Lemma bind_store {A B : Type} (c : Exec A) (f : A → Exec B) :
  (∀ s, (c s).1 = s) → (∀ a s, (f a s).1 = s) → ∀ s, ((c ≫= f) s).1 = s.
Proof.
  intros Hc Hf s. unfold mbind, Exec_bind. specialize (Hc s).
  destruct (c s) as [s1 [a|e]]; cbn [fst] in *; [|done]. by rewrite Hf.
Qed.

Lemma float_of_int_store N s : (float_of_int N s).1 = s.
Proof. unfold float_of_int. by destruct (binary_normalize prec emax N 0 false). Qed.

Lemma int_of_float_store (x : float) s : (int_of_float x s).1 = s.
Proof. by destruct x. Qed.

Lemma n_train_of_store N p s : (n_train_of N p s).1 = s.
Proof.
  revert s. unfold n_train_of, int_mul_float.
  apply bind_store; [|intros x s; apply int_of_float_store].
  apply bind_store; [intros s; apply float_of_int_store|done].
Qed.

Lemma merge_training_args_store (lib : Library) (self : Self) (now : datetime) s :
  (merge_training_args lib self now s).1 = s.
Proof.
  unfold merge_training_args. destruct (truthy _); [|done].
  destruct (training_args self) as [v|d|n]; [done| |done].
  erewrite bind_returned; [|reflexivity]. rewrite setattr_each_run.
  by destruct (forallb _ _).
Qed.

(** The steps of [get_trainer], when it returns. *)
Lemma get_trainer_returned (lib : Library) (self : Self) (now : datetime)
    (indices : list nat) (N : nat) s s' (t : Trainer) :
  AbstractTransformerAutoencoder.dataset self = ODataset N →
  get_trainer lib self now indices s = (s', Returned t) →
  s' = s
  ∧ ∃ n, n_train_of (Z.of_nat N) (train_pct self) s = (s, Returned n)
      ∧ train_dataset t = slice indices 0 n
      ∧ eval_dataset t = slice indices n (Z.of_nat N).
Proof.
  intros Hds. unfold get_trainer.
  pose proof (merge_training_args_store lib self now s) as Hm.
  unfold mbind at 1, Exec_bind at 1.
  destruct (merge_training_args lib self now s) as [s1 [cfg|e]]; [|done].
  cbn [fst] in Hm. subst s1. rewrite Hds.
  erewrite bind_returned; [|reflexivity].
  pose proof (n_train_of_store (Z.of_nat N) (train_pct self) s) as Hn.
  unfold mbind at 1, Exec_bind at 1.
  destruct (n_train_of (Z.of_nat N) (train_pct self) s) as [s2 [n|e]]; [|done].
  cbn [fst] in Hn. subst s2.
  erewrite bind_returned; [|apply random_split_run].
  intros [= <- <-]. split; [done|]. by exists n.
Qed.

Lemma slice_suffix_empty {A : Type} (l : list A) (n : Z) :
  Z.of_nat (length l) ≤ n → slice l n (Z.of_nat (length l)) = [].
Proof.
  intros Hn. unfold slice. rewrite slice_index_length, firstn_all.
  apply drop_ge. unfold slice_index. destruct (Z.ltb_spec n 0); lia.
Qed.

Lemma slice_prefix_all {A : Type} (l : list A) (n : Z) :
  Z.of_nat (length l) ≤ n → slice l 0 n = l.
Proof.
  intros Hn. unfold slice. rewrite slice_index_zero, drop_0.
  apply take_ge. unfold slice_index. destruct (Z.ltb_spec n 0); lia.
Qed.

Lemma slice_prefix_empty {A : Type} (l : list A) (n : Z) :
  n ≤ - Z.of_nat (length l) ∨ n = 0 → slice l 0 n = [].
Proof.
  intros Hn. unfold slice. rewrite slice_index_zero, drop_0.
  replace (slice_index (length l) n) with 0%nat; [done|].
  unfold slice_index. destruct (Z.ltb_spec n 0); lia.
Qed.

End SplitEdges.

(** X8: [train_pct] is never validated, and the split is a partition all
    the same.  Whenever [get_trainer] returns, for any float as
    [train_pct], it has not touched a flag and the train set followed by
    the eval set is the permutation drawn; when [int(N * train_pct)] is [N]
    or more (a fraction of 1 or above) the train set is the whole dataset
    and the eval set is empty. *)
Theorem X8_split_is_a_partition_for_any_fraction
    (lib : Library) (self : Self) (now : datetime) (indices : list nat)
    (N : nat) (s s' : gmap nat bool) (t : Trainer) :
  AbstractTransformerAutoencoder.dataset self = ODataset N →
  length indices = N →
  get_trainer lib self now indices s = (s', Returned t) →
  s' = s
  ∧ train_dataset t ++ eval_dataset t = indices
  ∧ ∃ n_train,
      n_train_of (Z.of_nat N) (train_pct self) s = (s, Returned n_train)
      ∧ (Z.of_nat N ≤ n_train →
           train_dataset t = indices ∧ eval_dataset t = []).
Proof.
  intros Hds Hlen Hret.
  destruct (get_trainer_returned lib self now indices N s s' t Hds Hret)
    as (-> & n & Hn & Htrain & Heval).
  split; [done|]. rewrite Htrain, Heval, <- Hlen. split; [apply slice_split|].
  exists n. split; [by rewrite Hlen|]. intros HN.
  split; [by apply slice_prefix_all|by apply slice_suffix_empty].
Qed.

Lemma X8_split_is_a_partition_for_any_fraction_witness :
  ∃ t, get_trainer (t5_library 2 3)
         (example_self (OScalar PNone) 10 (float_literal 2 0))
         {| day := 3; month := 11; year := 2026 |} (seq 0 10) (all_flags true 6)
       = (all_flags true 6, Returned t)
    ∧ n_train_of 10 (float_literal 2 0) (all_flags true 6)
      = (all_flags true 6, Returned 20)
    ∧ train_dataset t ++ eval_dataset t = seq 0 10
    ∧ train_dataset t = seq 0 10 ∧ eval_dataset t = [].
Proof.
  destruct (get_trainer (t5_library 2 3)
         (example_self (OScalar PNone) 10 (float_literal 2 0))
         {| day := 3; month := 11; year := 2026 |} (seq 0 10) (all_flags true 6))
    as [s' [t|e]] eqn:Hrun; [|vm_compute in Hrun; discriminate].
  destruct (X8_split_is_a_partition_for_any_fraction (t5_library 2 3)
              (example_self (OScalar PNone) 10 (float_literal 2 0))
              {| day := 3; month := 11; year := 2026 |} (seq 0 10) 10%nat
              (all_flags true 6) s' t eq_refl eq_refl Hrun)
    as (-> & Happ & n & Hn & Hall).
  assert (Hn20 : n_train_of 10 (float_literal 2 0) (all_flags true 6)
                 = (all_flags true 6, Returned 20)) by (vm_compute; reflexivity).
  exists t. split; [reflexivity|]. split; [exact Hn20|]. split; [exact Happ|].
  apply Hall. change (train_pct _) with (float_literal 2 0) in Hn.
  change (Z.of_nat 10) with 10 in Hn. rewrite Hn20 in Hn.
  injection Hn as <-. lia.
Defined.

(** X9: a train fraction of zero (of either sign) sends the whole dataset
    to evaluation: for a dataset of [N] items, [N] below [2 ^ 63], and
    overrides that are [None] or a mapping without a read-only key,
    [get_trainer] returns with an empty train set and the eval set equal to
    the permutation drawn. *)
Theorem X9_zero_fraction_trains_on_nothing
    (lib : Library) (self : Self) (now : datetime) (indices : list nat)
    (N : nat) (b : bool) (s : gmap nat bool) :
  AbstractTransformerAutoencoder.dataset self = ODataset N →
  Z.of_nat N < 2 ^ 63 →
  train_pct self = S754_zero b →
  settable lib (training_args self) →
  length indices = N →
  ∃ t, get_trainer lib self now indices s = (s, Returned t)
    ∧ train_dataset t = [] ∧ eval_dataset t = indices.
Proof.
  intros Hds HN Hp Hargs Hlen.
  destruct (merge_settable lib self now s Hargs) as [cfg Hmerge].
  assert (Hn : n_train_of (Z.of_nat N) (train_pct self) s = (s, Returned 0)).
  { destruct (float_of_int_run (Z.of_nat N) s) as [Hrun Hf]; [lia|].
    unfold n_train_of, int_mul_float.
    erewrite bind_returned; [|by erewrite bind_returned].
    rewrite Hp. by destruct Hf as [->|(m & e & -> & _)]. }
  eexists. split.
  { unfold get_trainer. erewrite bind_returned; [|done]. rewrite Hds.
    erewrite bind_returned; [|reflexivity].
    erewrite bind_returned; [|done].
    erewrite bind_returned; [|apply random_split_run]. reflexivity. }
  cbn [train_dataset eval_dataset]. split.
  - apply slice_prefix_empty. by right.
  - rewrite <- Hlen. pose proof (slice_split indices 0) as Hsplit.
    by rewrite (slice_prefix_empty indices 0) in Hsplit by (by right).
Qed.

Lemma X9_zero_fraction_trains_on_nothing_witness :
  ∃ t, get_trainer (t5_library 2 3)
         (example_self (OScalar PNone) 4 (S754_zero false))
         {| day := 3; month := 11; year := 2026 |} [2; 0; 3; 1]%nat
         (all_flags true 6)
       = (all_flags true 6, Returned t)
    ∧ train_dataset t = [] ∧ eval_dataset t = [2; 0; 3; 1]%nat.
Proof.
  apply (X9_zero_fraction_trains_on_nothing (t5_library 2 3)
    (example_self (OScalar PNone) 4 (S754_zero false))
    {| day := 3; month := 11; year := 2026 |} [2; 0; 3; 1]%nat 4%nat false
    (all_flags true 6)); [reflexivity|reflexivity|reflexivity| |reflexivity].
  left. reflexivity.
Defined.

(** X10: a train fraction that is not a number makes [get_trainer] raise
    [ValueError] at [int(...)], and an infinite one [OverflowError] for a
    dataset that is not empty ([N] below [2 ^ 53]) and [ValueError] for an
    empty one, since zero times infinity is not a number; no flag is
    touched. *)
Theorem X10_fraction_not_finite_raises
    (N : nat) (b : bool) (s : gmap nat bool) :
  (Z.of_nat N < 2 ^ 63 →
   n_train_of (Z.of_nat N) S754_nan s = (s, Raised ValueError))
  ∧ (0 < Z.of_nat N < 2 ^ 53 →
     n_train_of (Z.of_nat N) (S754_infinity b) s = (s, Raised OverflowError))
  ∧ n_train_of 0 (S754_infinity b) s = (s, Raised ValueError)
  ∧ (∀ lib self now indices e,
       AbstractTransformerAutoencoder.dataset self = ODataset N →
       training_args self = OScalar PNone →
       n_train_of (Z.of_nat N) (train_pct self) s = (s, Raised e) →
       get_trainer lib self now indices s = (s, Raised e)).
Proof.
  split; [|split; [|split]].
  - intros HN. destruct (float_of_int_run (Z.of_nat N) s) as [Hrun Hf]; [lia|].
    unfold n_train_of, int_mul_float.
    erewrite bind_returned; [|by erewrite bind_returned].
    by destruct Hf as [->|(m & e & -> & _)].
  - intros HN. destruct (float_of_int_run (Z.of_nat N) s) as [Hrun _]; [lia|].
    unfold n_train_of, int_mul_float.
    erewrite bind_returned; [|by erewrite bind_returned].
    by destruct (binary_normalize_exact (Z.of_nat N)) as (m & e & -> & _); [lia|].
  - reflexivity.
  - intros lib self now indices e Hds Hnone Hraise. unfold get_trainer.
    erewrite bind_returned; [|unfold merge_training_args; by rewrite Hnone].
    rewrite Hds. erewrite bind_returned; [|reflexivity].
    by apply bind_raised.
Qed.

Lemma X10_fraction_not_finite_raises_witness :
  n_train_of 10 S754_nan (all_flags true 6) = (all_flags true 6, Raised ValueError)
  ∧ n_train_of 10 (S754_infinity false) (all_flags true 6)
    = (all_flags true 6, Raised OverflowError)
  ∧ get_trainer (t5_library 2 3)
      (example_self (OScalar PNone) 10 (S754_infinity false))
      {| day := 3; month := 11; year := 2026 |} (seq 0 10) (all_flags true 6)
    = (all_flags true 6, Raised OverflowError).
Proof.
  pose proof (X10_fraction_not_finite_raises 10 false (all_flags true 6))
    as (Hnan & Hinf & _ & Htrainer).
  split; [apply Hnan; reflexivity|].
  split; [apply Hinf; split; reflexivity|].
  apply Htrainer; [reflexivity|reflexivity|].
  apply Hinf. split; reflexivity.
Defined.

(** X11: an empty dataset is split without error: for a train fraction
    that is a finite float, of any sign and size, and overrides that are
    [None] or a mapping without a read-only key, [get_trainer] returns with
    both sets empty. *)
Theorem X11_empty_dataset_splits_into_empty_sets
    (lib : Library) (self : Self) (now : datetime) (s : gmap nat bool) :
  AbstractTransformerAutoencoder.dataset self = ODataset 0 →
  (train_pct self ≠ S754_nan ∧ ∀ b, train_pct self ≠ S754_infinity b) →
  settable lib (training_args self) →
  ∃ t, get_trainer lib self now [] s = (s, Returned t)
    ∧ train_dataset t = [] ∧ eval_dataset t = [].
Proof.
  intros Hds [Hnan Hinf] Hargs.
  destruct (merge_settable lib self now s Hargs) as [cfg Hmerge].
  assert (Hn : n_train_of 0 (train_pct self) s = (s, Returned 0)).
  { destruct (train_pct self) as [b|b| |b m e]; try done. by destruct (Hinf b). }
  eexists. split.
  { unfold get_trainer. erewrite bind_returned; [|done]. rewrite Hds.
    erewrite bind_returned; [|reflexivity].
    cbn [Z.of_nat]. erewrite bind_returned; [|done].
    erewrite bind_returned; [|apply (random_split_run 0 0)]. reflexivity. }
  done.
Qed.

Lemma X11_empty_dataset_splits_into_empty_sets_witness :
  ∃ t, get_trainer (t5_library 2 3)
         (example_self (OScalar PNone) 0 (float_literal 8 1))
         {| day := 3; month := 11; year := 2026 |} [] (all_flags true 6)
       = (all_flags true 6, Returned t)
    ∧ train_dataset t = [] ∧ eval_dataset t = [].
Proof.
  apply (X11_empty_dataset_splits_into_empty_sets (t5_library 2 3)
    (example_self (OScalar PNone) 0 (float_literal 8 1))
    {| day := 3; month := 11; year := 2026 |} (all_flags true 6)).
  - reflexivity.
  - split; [vm_compute; discriminate|intros b; vm_compute; discriminate].
  - left. reflexivity.
Defined.


(** X12: [int(N * train_pct)] is the floor of the exact product or one
    more.  For a dataset size [N] below [2 ^ 53] and a train fraction that
    is a binary64 float strictly between 0 and 1, the [n_train] the code
    computes satisfies [floor(N·p) ≤ n_train ≤ floor(N·p) + 1], where [p] is
    the exact value of the float. *)
Theorem X12_n_train_within_one_of_floor
    (N : Z) (p : float) (s : gmap nat bool) :
  0 ≤ N < 2 ^ 53 →
  in_open_unit p = true →
  ∃ n_train, n_train_of N p s = (s, Returned n_train)
    ∧ floor_of_product N p ≤ n_train ≤ floor_of_product N p + 1.
Proof. by apply n_train_of_near_floor. Qed.

Lemma X12_n_train_within_one_of_floor_witness :
  ∃ n_train, n_train_of 10 (float_literal 7 1) (all_flags true 6)
             = (all_flags true 6, Returned n_train)
    ∧ floor_of_product 10 (float_literal 7 1) ≤ n_train
      ≤ floor_of_product 10 (float_literal 7 1) + 1.
Proof.
  apply (X12_n_train_within_one_of_floor 10 (float_literal 7 1)
           (all_flags true 6)); [lia|].
  vm_compute. reflexivity.
Defined.

(** ** The default output directory *)

Section OutputDir.

Implicit Types (acc a b s : string).

Lemma append_assoc_char acc (c : ascii) b :
  (acc +:+ String c EmptyString) +:+ b = acc +:+ String c b.
Proof.
  induction acc as [|c' acc IH]; [reflexivity|].
  change (String c' ((acc +:+ String c EmptyString) +:+ b)
          = String c' (acc +:+ String c b)).
  by f_equal.
Qed.

Lemma append_empty_r acc : acc +:+ EmptyString = acc.
Proof.
  induction acc as [|c' acc IH]; [reflexivity|].
  change (String c' (acc +:+ EmptyString) = String c' acc). by f_equal.
Qed.

Lemma last_segment_from_no_slash acc b :
  no_slash b = true → last_segment_from acc b = acc +:+ b.
Proof.
  revert acc. induction b as [|c b IH]; intros acc Hb; cbn [last_segment_from].
  - by rewrite append_empty_r.
  - cbn [no_slash] in Hb. apply andb_true_iff in Hb as [Hc Hb].
    apply negb_true_iff in Hc. rewrite Hc, IH by done.
    apply append_assoc_char.
Qed.

Lemma last_segment_from_slash acc a b :
  last_segment_from acc (a +:+ String "/" b) = last_segment_from EmptyString b.
Proof.
  revert acc. induction a as [|c a IH]; intros acc.
  - reflexivity.
  - change (last_segment_from acc (String c (a +:+ String "/" b))
            = last_segment_from EmptyString b).
    cbn [last_segment_from]. destruct (Ascii.eqb c "/"); apply IH.
Qed.

Lemma no_slash_app a b : no_slash a = true → no_slash b = true → no_slash (a +:+ b) = true.
Proof.
  intros Ha Hb. induction a as [|c a IH]; [done|].
  change (no_slash (String c (a +:+ b)) = true).
  cbn [no_slash] in *. apply andb_true_iff in Ha as [Hc Ha]. by rewrite Hc, IH.
Qed.

Lemma no_slash_last_segment_from acc s :
  no_slash acc = true → no_slash (last_segment_from acc s) = true.
Proof.
  revert acc. induction s as [|c s IH]; intros acc Hacc; cbn [last_segment_from];
    [done|].
  destruct (Ascii.eqb c "/") eqn:Hc; [by apply IH|].
  apply IH, no_slash_app; [done|]. cbn [no_slash]. by rewrite Hc.
Qed.

End OutputDir.

(** X13: the default [output_dir] is named after the last component of the
    model name.  [model_name.split('/')[-1]] never contains a ['/']; it is
    the whole name when the name has none, and the part after the last
    ['/'] otherwise, so ["org/name"] and ["name"] give the same directory
    [name-day-month-year]. *)
Theorem X13_output_dir_uses_last_component
    (lib : Library) (a b : string) (now : datetime) :
  no_slash (last_segment a) = true
  ∧ (no_slash b = true →
     last_segment b = b
     ∧ last_segment (a +:+ String "/" b) = b
     ∧ default_training_args lib (a +:+ String "/" b) now !! "output_dir"%string
       = default_training_args lib b now !! "output_dir"%string
     ∧ default_training_args lib b now !! "output_dir"%string
       = Some (PStr (b +:+ "-" +:+ pretty (day now) +:+ "-"
                     +:+ pretty (month now) +:+ "-" +:+ pretty (year now)))).
Proof.
  split; [by apply no_slash_last_segment_from|]. intros Hb.
  assert (Hlast : last_segment b = b)
    by (unfold last_segment; by rewrite last_segment_from_no_slash).
  assert (Hslash : last_segment (a +:+ String "/" b) = b)
    by (unfold last_segment; by rewrite last_segment_from_slash).
  assert (Hdir : ∀ name, default_training_args lib name now !! "output_dir"%string
            = Some (PStr (last_segment name +:+ "-" +:+ pretty (day now) +:+ "-"
                          +:+ pretty (month now) +:+ "-" +:+ pretty (year now)))).
  { intros name. unfold default_training_args, default_kwargs.
    apply lookup_union_Some_l. cbn [list_to_map foldr]. apply lookup_insert_eq. }
  split; [done|]. split; [done|]. rewrite !Hdir, Hslash, Hlast. done.
Qed.

Lemma X13_output_dir_uses_last_component_witness :
  last_segment "t5-small" = "t5-small"%string
  ∧ last_segment ("google" +:+ String "/" "t5-small") = "t5-small"%string
  ∧ default_training_args (t5_library 2 3) ("google" +:+ String "/" "t5-small")
      {| day := 3; month := 11; year := 2026 |} !! "output_dir"%string
    = default_training_args (t5_library 2 3) "t5-small"
      {| day := 3; month := 11; year := 2026 |} !! "output_dir"%string
  ∧ default_training_args (t5_library 2 3) "t5-small"
      {| day := 3; month := 11; year := 2026 |} !! "output_dir"%string
    = Some (PStr ("t5-small" +:+ "-" +:+ pretty 3%nat +:+ "-"
                  +:+ pretty 11%nat +:+ "-" +:+ pretty 2026%nat)).
Proof.
  apply (proj2 (X13_output_dir_uses_last_component (t5_library 2 3) "google"
                  "t5-small" {| day := 3; month := 11; year := 2026 |})).
  reflexivity.
Defined.

(** ** What [T5Autoencoder] stores *)

Lemma random_split_run_str (path : string) (n : Z) (indices : list nat)
    (s : gmap nat bool) :
  random_split (OScalar (PStr path)) (n, Z.of_nat (utf8_length path) - n)
    indices s
  = (s, Returned (slice indices 0 n,
                  slice indices n (Z.of_nat (utf8_length path)))).
Proof.
  unfold random_split. erewrite bind_returned; [|reflexivity].
  case_bool_decide as Hsum; [lia|].
  replace (n - n) with 0 by lia.
  replace (n + (Z.of_nat (utf8_length path) - n)
           - (Z.of_nat (utf8_length path) - n)) with n by lia.
  by replace (n + (Z.of_nat (utf8_length path) - n))
    with (Z.of_nat (utf8_length path)) by lia.
Qed.

(** The split of a string: [random_split] takes the string's code points
    for the items of the dataset. *)
Lemma get_trainer_returned_str (lib : Library) (self : Self) (now : datetime)
    (indices : list nat) (path : string) (s s' : gmap nat bool) (t : Trainer) :
  AbstractTransformerAutoencoder.dataset self = OScalar (PStr path) →
  get_trainer lib self now indices s = (s', Returned t) →
  ∃ n, n_train_of (Z.of_nat (utf8_length path)) (train_pct self) s
       = (s, Returned n)
    ∧ train_dataset t = slice indices 0 n
    ∧ eval_dataset t = slice indices n (Z.of_nat (utf8_length path)).
Proof.
  intros Hds. unfold get_trainer.
  pose proof (merge_training_args_store lib self now s) as Hm.
  unfold mbind at 1, Exec_bind at 1.
  destruct (merge_training_args lib self now s) as [s1 [cfg|e]]; [|done].
  cbn [fst] in Hm. subst s1. rewrite Hds.
  erewrite bind_returned; [|reflexivity].
  pose proof (n_train_of_store (Z.of_nat (utf8_length path)) (train_pct self) s)
    as Hn.
  unfold mbind at 1, Exec_bind at 1.
  destruct (n_train_of (Z.of_nat (utf8_length path)) (train_pct self) s)
    as [s2 [n|e]]; [|done].
  cbn [fst] in Hn. subst s2.
  erewrite bind_returned; [|apply random_split_run_str].
  intros [= <- <-]. by exists n.
Qed.

(** X14: [T5Autoencoder] never turns [data_dir] into a dataset: whenever
    its constructor returns, [self.dataset] is the [data_dir] argument
    itself and [self.training_args] the [training_args_dict] argument; so
    for a path string [len(self.dataset)] is the number of characters
    (code points) of the path, and a trainer [get_trainer] returns for the
    instance holds a split of that many indices: the characters of the
    path stand for the examples. *)
Theorem X14_t5_dataset_is_data_dir
    (lib : Library) (data_dir : pyobj) (name : string)
    (block_size training_args_dict ds_limit : pyobj) (tp : float) (spec : Spec)
    (s s' : gmap nat bool) (self : Self) :
  T5Autoencoder.init lib data_dir name block_size training_args_dict ds_limit
    tp spec s = (s', Returned self) →
  AbstractTransformerAutoencoder.dataset self = data_dir
  ∧ training_args self = training_args_dict
  ∧ train_pct self = tp
  ∧ (∀ path, data_dir = OScalar (PStr path) →
       len (AbstractTransformerAutoencoder.dataset self) s'
       = (s', Returned (Z.of_nat (utf8_length path))))
  ∧ (∀ path now indices s1 s2 t,
       data_dir = OScalar (PStr path) →
       get_trainer lib self now indices s1 = (s2, Returned t) →
       ∃ n, n_train_of (Z.of_nat (utf8_length path)) tp s1 = (s1, Returned n)
         ∧ train_dataset t = slice indices 0 n
         ∧ eval_dataset t = slice indices n (Z.of_nat (utf8_length path))).
Proof.
  intros Hret. unfold T5Autoencoder.init in Hret.
  pose proof (init_returned _ _ _ _ _ _ _ _ _ _ _ Hret) as (_ & _ & Hds & Hta & _).
  assert (Htp : train_pct self = tp).
  { revert Hret. unfold init. destruct block_size as [v|d|n]; try done.
    erewrite bind_returned; [|reflexivity]. unfold mbind, Exec_bind.
    destruct (init_layers _ spec s) as [s1 [[]|e]]; [|done]. by intros [= <- <-]. }
  split; [done|]. split; [done|]. split; [done|]. split.
  - intros path ->. by rewrite Hds.
  - intros path now indices s1 s2 t -> Hrun. rewrite <- Htp.
    by eapply get_trainer_returned_str.
Qed.

Lemma X14_t5_dataset_is_data_dir_witness :
  ∃ s' self,
      T5Autoencoder.init (t5_library 2 3) (OScalar (PStr "/data/語"))
        T5Autoencoder.default_model_name (OMapping ∅)
        T5Autoencoder.default_training_args_dict T5Autoencoder.default_ds_limit
        T5Autoencoder.default_train_pct (SpecInt 0) (all_flags true 6)
      = (s', Returned self)
      ∧ AbstractTransformerAutoencoder.dataset self = OScalar (PStr "/data/語")
      ∧ len (AbstractTransformerAutoencoder.dataset self) s' = (s', Returned 7).
Proof.
  destruct (T5Autoencoder.init (t5_library 2 3) (OScalar (PStr "/data/語"))
        T5Autoencoder.default_model_name (OMapping ∅)
        T5Autoencoder.default_training_args_dict T5Autoencoder.default_ds_limit
        T5Autoencoder.default_train_pct (SpecInt 0) (all_flags true 6))
    as [s' [self|e]] eqn:Hinit; [|vm_compute in Hinit; discriminate].
  exists s', self. split; [reflexivity|].
  pose proof (X14_t5_dataset_is_data_dir _ _ _ _ _ _ _ _ _ _ _ Hinit)
    as (Hds & _ & _ & Hlen & _).
  split; [exact Hds|]. apply (Hlen "/data/語"%string). reflexivity.
Defined.

(** ** What [get_trainer] leaves alone and what the merge keeps *)

Lemma len_store (o : pyobj) (s : gmap nat bool) : (len o s).1 = s.
Proof. destruct o as [[]| |]; done. Qed.

Lemma random_split_store (dataset : pyobj) (lengths : Z * Z) (indices : list nat)
    (s : gmap nat bool) :
  (random_split dataset lengths indices s).1 = s.
Proof.
  revert s. unfold random_split. destruct lengths as [l1 l2].
  apply bind_store; [intros s; apply len_store|].
  intros n s. by case_bool_decide.
Qed.

(** X15: [get_trainer] never writes a [requires_grad] flag: whatever the
    instance, the date and the permutation, and whether it returns a
    trainer or raises, the store it leaves is the store it was given.  The
    selection the constructor made is what the trainer trains. *)
Theorem X15_get_trainer_leaves_flags
    (lib : Library) (self : Self) (now : datetime) (indices : list nat)
    (s : gmap nat bool) :
  (get_trainer lib self now indices s).1 = s
  ∧ ∀ s' t, get_trainer lib self now indices s = (s', Returned t) →
      trainer_model t = model self.
Proof.
  split.
  - revert s. unfold get_trainer.
    apply bind_store; [intros s; apply merge_training_args_store|]. intros cfg.
    apply bind_store; [intros s; apply len_store|]. intros N.
    apply bind_store; [intros s; apply n_train_of_store|]. intros n.
    apply bind_store; [intros s; apply random_split_store|]. done.
  - intros s' t. unfold get_trainer, mbind, Exec_bind.
    destruct (merge_training_args lib self now s) as [s1 [cfg|e]]; [|done].
    destruct (len _ s1) as [s2 [N|e]]; [|done].
    destruct (n_train_of N _ s2) as [s3 [n|e]]; [|done].
    destruct (random_split _ _ indices s3) as [s4 [split|e]]; [|done].
    by intros [= <- <-].
Qed.

(** X16: overrides add and replace fields and never remove one.  For a
    mapping [d] of overrides none of whose keys is a read-only property,
    the fields of the merged configuration are those of [d] together with
    those of the defaults, so each of the keyword fields the code passes is
    defined whatever the overrides, and a field the overrides do not
    mention keeps its default. *)
Theorem X16_merge_keeps_every_default_field
    (lib : Library) (self : Self) (now : datetime) (d : gmap string pyval)
    (s : gmap nat bool) :
  training_args self = OMapping d →
  (∀ k, k ∈ dom d → k ∉ TrainingArguments_read_only lib) →
  ∃ merged, merge_training_args lib self now s = (s, Returned merged)
    ∧ dom merged
      = dom d ∪ dom (default_training_args lib (model_name self) now)
    ∧ (∀ k v, (k, v) ∈ default_kwargs (model_name self) now →
         is_Some (merged !! k))
    ∧ (∀ k, d !! k = None →
         merged !! k = default_training_args lib (model_name self) now !! k).
Proof.
  intros Hd Hset. eexists. split; [by apply merge_mapping|].
  split; [apply dom_union_L|]. split.
  - intros k v Hkv. rewrite lookup_override.
    destruct (d !! k); [done|].
    unfold default_training_args. rewrite lookup_override.
    assert (Hin : is_Some ((list_to_map (default_kwargs (model_name self) now)
                            : gmap string pyval) !! k)).
    { apply elem_of_dom. rewrite dom_list_to_map_L. apply elem_of_list_to_set.
      apply list_elem_of_fmap. by exists (k, v). }
    by destruct Hin as [v' ->].
  - intros k Hk. by rewrite lookup_override, Hk.
Qed.

Lemma X16_merge_keeps_every_default_field_witness :
  ∃ merged,
    merge_training_args (t5_library 2 3)
      (example_self (OMapping {[ "fp16"%string := PBool false ]}) 10
         (float_literal 8 1))
      {| day := 3; month := 11; year := 2026 |} (all_flags true 6)
    = (all_flags true 6, Returned merged)
    ∧ merged !! "save_steps"%string
      = default_training_args (t5_library 2 3) "google/t5-small"
          {| day := 3; month := 11; year := 2026 |} !! "save_steps"%string.
Proof.
  destruct (X16_merge_keeps_every_default_field (t5_library 2 3)
    (example_self (OMapping {[ "fp16"%string := PBool false ]}) 10
       (float_literal 8 1))
    {| day := 3; month := 11; year := 2026 |} {[ "fp16"%string := PBool false ]}
    (all_flags true 6) eq_refl) as (merged & Hrun & _ & _ & Hkeep).
  { intros k Hk. rewrite dom_singleton_L in Hk.
    apply elem_of_singleton in Hk. subst k.
    intros Hro. apply (bool_decide_eq_true_2 _) in Hro. vm_compute in Hro.
    discriminate. }
  exists merged. split; [exact Hrun|]. apply Hkeep. reflexivity.
Defined.
